(** * Pill-permutation service: the Counter, the Dispatcher and the Deferred Worker

    A shallow embedding of the three Lambda handlers and of the stand-alone
    scripts of the repository.

    Numbers.  The program works on JavaScript numbers that hold integers
    (the dispatcher passes the result of [parseInt], the accumulator counts
    up from 0 one by one).  They are embedded as [Z].  A JavaScript number
    is a double: integers of magnitude up to 2^53 and their sums within
    that range are exact, and an accumulator that has reached 2^53 is not
    moved by [++] any more.  The handlers are modelled on the integers,
    which is the arithmetic of the program on every total they let through
    ([count_domain_exact]); module [Double] holds the Counter with the
    accumulator stopping at 2^53, the scripts use its increment, and
    [double_agrees] relates the two. *)

From Equations Require Import Equations.
From Stdlib Require Import ZArith Lia List String Ascii Bool DecimalString.
From Stdlib Require Import DecimalFacts DecimalPos.
Import ListNotations.

Local Open Scope string_scope.
Local Open Scope Z_scope.

(** ** Module constants *)

Definition minPillsPerDay : Z := 1.
Definition maxPillsPerDay : Z := 2.

(** ** JavaScript values

    The values that reach the handlers: query-string parameters, the
    [permutations] field of a cache answer, log arguments.  A number is an
    integer or [NaN]; [JObject] stands for a plain object whose content the
    program never looks at. *)

Inductive jsval : Type :=
| JUndefined
| JNull
| JBool (b : bool)
| JNum (n : Z)
| JNaN
| JStr (s : string)
| JObject.

(** [if (v)], [!v] *)
Definition truthy (v : jsval) : bool :=
  match v with
  | JUndefined | JNull | JNaN => false
  | JBool b => b
  | JNum n => negb (n =? 0)
  | JStr s => negb (String.eqb s EmptyString)
  | JObject => true
  end.

(** [n.toString()] on an integer. *)
Definition toString (n : Z) : string :=
  DecimalString.NilZero.string_of_int (Z.to_int n).

(** [String(v)], the conversion [parseInt] applies to its argument. *)
Definition ToString (v : jsval) : string :=
  match v with
  | JUndefined => "undefined"
  | JNull => "null"
  | JBool true => "true"
  | JBool false => "false"
  | JNum n => toString n
  | JNaN => "NaN"
  | JStr s => s
  | JObject => "[object Object]"
  end.

(** ** [parseInt(string)] without a radix

    Leading white space is skipped, one sign is read, a [0x]/[0X] prefix
    selects radix 16 (radix 10 otherwise), and the longest prefix of digits
    of that radix is the value; no digit at all is [NaN] ([None]).  A string
    is a sequence of bytes; the white space recognised is the ASCII one. *)

Definition isWhiteSpace (c : ascii) : bool :=
  let n := nat_of_ascii c in
  (Nat.eqb n 32 || (Nat.leb 9 n && Nat.leb n 13))%bool.

Fixpoint trimStart (s : string) : string :=
  match s with
  | String c rest => if isWhiteSpace c then trimStart rest else s
  | EmptyString => s
  end.

Definition digitValue (c : ascii) : option Z :=
  let n := Z.of_nat (nat_of_ascii c) in
  if (48 <=? n) && (n <=? 57) then Some (n - 48)
  else if (97 <=? n) && (n <=? 122) then Some (n - 87)
  else if (65 <=? n) && (n <=? 90) then Some (n - 55)
  else None.

(** The value of the longest prefix of radix-[R] digits, [seen] being the
    value of the digits read so far. *)
Fixpoint digitsPrefix (R : Z) (s : string) (seen : option Z) : option Z :=
  match s with
  | EmptyString => seen
  | String c rest =>
      match digitValue c with
      | Some d =>
          if d <? R
          then digitsPrefix R rest
                 (Some (match seen with Some a => a * R + d | None => d end))
          else seen
      | None => seen
      end
  end.

Definition parseInt (inputString : string) : option Z :=
  let trimmed := trimStart inputString in
  let '(sign, unsigned) :=
    match trimmed with
    | String "-"%char rest => (-1, rest)
    | String "+"%char rest => (1, rest)
    | _ => (1, trimmed)
    end in
  let '(R, numeral) :=
    match unsigned with
    | String "0"%char (String "x"%char rest) => (16, rest)
    | String "0"%char (String "X"%char rest) => (16, rest)
    | _ => (10, unsigned)
    end in
  match digitsPrefix R numeral None with
  | Some mathInt => Some (sign * mathInt)
  | None => None
  end.

(** ** The outside world

    [Request(options, cb)] calls [cb(err, res, body)].  The answer is either
    a transport error, given by the text it prints as, or a response with
    its status code and its body.  Of the body the program only looks at
    the result of [JSON.parse(body).permutations] inside a [try]: that
    either throws (the body is not JSON, or it is [null]), or it is the
    value of the field ([JUndefined] when there is none). *)

Inductive parsed : Type :=
| Throws (e : string)
| Parsed (permutations : jsval).

Inductive http_result : Type :=
| HttpError (err : string)
| HttpResponse (statusCode : Z) (body : parsed).

Module Http.
Record request : Type := {
  url : string;
  method : string;
  qs : list (string * jsval);
  body : list (string * string);
  headers : list (string * string);
  json : bool }.
End Http.

(** [process.env] *)
Record processEnv : Type := {
  cacheUrl : option string;
  deferUrl : option string }.

(** [!process.env.x]: unset or empty *)
Definition isSet (v : option string) : bool :=
  match v with
  | Some s => negb (String.eqb s EmptyString)
  | None => false
  end.

(** the variable where it is used as a string *)
Definition envString (v : option string) : string :=
  match v with
  | Some s => s
  | None => "undefined"
  end.

(** The object [prepareResponse] passes to [JSON.stringify], by shape:
    [{success: false, message}], [{success: true, status: 'complete',
    permutations}], [{success: true, status: 'deferred', task: {url, id}}],
    [{success: false, error}]. *)
Inductive responseBody : Type :=
| Message (message : string)
| Complete (permutations : jsval)
| Deferred (url : string) (id : string)
| Failed (error : string).

Record response : Type := {
  statusCode : Z;
  body : responseBody;
  headers : list (string * string);
  isBase64Encoded : bool }.

Definition prepareResponse (statusCode : Z) (body : responseBody) : response :=
  {| statusCode := statusCode;
     body := body;
     headers := [("Access-Control-Allow-Origin", "*")];
     isBase64Encoded := false |}.

(** A promise that has settled. *)
Inductive settled (A : Type) : Type :=
| Resolved (a : A)
| Rejected (reason : string).
Arguments Resolved {A} a.
Arguments Rejected {A} reason.

(** ** Handlers as programs over their effects

    A handler is a finite tree of effects: requests, a fresh UUID, log
    lines, calls of the Lambda callback.  A call of the Counter is kept as
    a node of its own, with its argument and the value it returned, so that
    a run shows whether and on what the Counter ran. *)

Inductive effect : Type -> Type :=
| Request (options : Http.request) : effect http_result
| UUID : effect string
| consoleLog (args : list jsval) : effect unit
| callback (error : option string) (result : option response) : effect unit
| counter (numberOfPills : jsval) (numberOfPermutations : Z) : effect Z.

Inductive prog (A : Type) : Type :=
| Ret (a : A)
| Vis {X : Type} (e : effect X) (k : X -> prog A).
Arguments Ret {A} a.
Arguments Vis {A X} e k.

Fixpoint bind {A B : Type} (p : prog A) (f : A -> prog B) : prog B :=
  match p with
  | Ret a => f a
  | Vis e k => Vis e (fun x => bind (k x) f)
  end.

Definition perform {X : Type} (e : effect X) : prog X := Vis e Ret.

Declare Scope prog_scope.
Delimit Scope prog_scope with prog.
Notation "x <- p ;; q" := (bind p (fun x => q))
  (at level 61, p at next level, right associativity) : prog_scope.
Notation "p ;; q" := (bind p (fun _ => q))
  (at level 61, right associativity) : prog_scope.
Local Open Scope prog_scope.

(** What a run leaves behind, in order. *)
Inductive event : Type :=
| Requested (options : Http.request) (answer : http_result)
| Generated (id : string)
| Logged (args : list jsval)
| CalledBack (error : option string) (result : option response)
| Counted (numberOfPills : jsval) (numberOfPermutations : Z).

Record world : Type := {
  http : Http.request -> http_result;
  uuid : string }.

Definition answer (w : world) {X : Type} (e : effect X) : X :=
  match e in effect T return T with
  | Request options => http w options
  | UUID => uuid w
  | consoleLog _ => tt
  | callback _ _ => tt
  | counter _ numberOfPermutations => numberOfPermutations
  end.

Definition observe {X : Type} (e : effect X) : X -> event :=
  match e in effect T return T -> event with
  | Request options => fun res => Requested options res
  | UUID => fun id => Generated id
  | consoleLog args => fun _ => Logged args
  | callback err res => fun _ => CalledBack err res
  | counter numberOfPills _ => fun c => Counted numberOfPills c
  end.

Fixpoint run (w : world) {A : Type} (p : prog A) : list event * A :=
  match p with
  | Ret a => ([], a)
  | Vis e k =>
      let x := answer w e in
      let '(t, a) := run w (k x) in
      (observe e x :: t, a)
  end.

Definition trace (w : world) {A : Type} (p : prog A) : list event :=
  fst (run w p).

(** The calls of the Lambda callback in a run, and the totals the Counter
    was run on. *)
Fixpoint callbacks (t : list event) : list (option string * option response) :=
  match t with
  | [] => []
  | CalledBack err res :: t' => (err, res) :: callbacks t'
  | _ :: t' => callbacks t'
  end.

Fixpoint counted (t : list event) : list jsval :=
  match t with
  | [] => []
  | Counted n _ :: t' => n :: counted t'
  | _ :: t' => counted t'
  end.

Fixpoint requests (t : list event) : list Http.request :=
  match t with
  | [] => []
  | Requested options _ :: t' => options :: requests t'
  | _ :: t' => requests t'
  end.

(** ** The dispatcher (first handler of the service)

    The Counter first.

    [getNumberOfPermutations] owns a local accumulator
    [numberOfPermutations]; the inner [findPermutations] walks the running
    sum and increments it.  The accumulator is threaded explicitly: the
    last argument is its value before the call, the result its value
    after.  The value [findPermutations] itself returns ([false], the old
    count, or nothing) is dropped by every caller and is not modelled.
    The [for] loop runs [i] from [minPillsPerDay] to [maxPillsPerDay],
    that is, exactly the two calls written out below, in that order.
    The increment is the one of the integers, which is the program's as
    long as the accumulator stays below 2^53, that is for totals up to 77;
    [Double.findPermutations] below is the same function with the
    increment of a double. *)

Module Dispatcher.

Equations? findPermutations (numberOfPills sum numberOfPermutations : Z) : Z
  by wf (Z.to_nat (numberOfPills - sum + 1)) lt :=
  findPermutations numberOfPills sum acc with Z_gt_dec sum numberOfPills := {
    | left _ := acc;
    | right _ with Z.eq_dec sum numberOfPills := {
        | left _ := acc + 1;
        | right _ :=
            findPermutations numberOfPills (sum + maxPillsPerDay)
              (findPermutations numberOfPills (sum + minPillsPerDay) acc) } }.
Proof. all: unfold minPillsPerDay, maxPillsPerDay; lia. Qed.

Definition getNumberOfPermutations (numberOfPills : Z) : Z :=
  let numberOfPermutations := 0 in
  findPermutations numberOfPills 0 numberOfPermutations.

(** [getFromCache]: the promise settles from the answer to the GET. *)
Definition cacheGet (env : processEnv) (numberOfPills : Z) : Http.request :=
  {| Http.url := envString (cacheUrl env);
     Http.method := "GET";
     Http.qs := [("pills", JNum numberOfPills)];
     Http.body := [];
     Http.headers := [("Content-Type", "application/json")];
     Http.json := false |}.

Definition getFromCache_settle (answer : http_result) : settled jsval :=
  match answer with
  | HttpError err =>
      Rejected ("Error: Internal Error Making GET Request to Cache Service - " ++ err)
  | HttpResponse statusCode body =>
      if negb (statusCode =? 200)
      then Rejected ("Error: GET Request to Cache Service failed - " ++ "[object Object]")
      else match body with
           | Parsed permutations =>
               if truthy permutations then Resolved permutations
               else Resolved (JBool false)
           | Throws e =>
               Rejected ("Error: Error parsing response from cache - " ++ e)
           end
  end.

Definition getFromCache (env : processEnv) (numberOfPills : Z) : prog (settled jsval) :=
  answer <- perform (Request (cacheGet env numberOfPills)) ;;
  Ret (getFromCache_settle answer).

(** [saveToCache] *)
Definition cachePost (env : processEnv) (numberOfPills numberOfPermutations : Z)
  : Http.request :=
  {| Http.url := envString (cacheUrl env);
     Http.method := "POST";
     Http.qs := [];
     Http.body := [("pills", toString numberOfPills);
                   ("permutations", toString numberOfPermutations)];
     Http.headers := [];
     Http.json := true |}.

Definition saveToCache_settle (answer : http_result) : settled bool :=
  match answer with
  | HttpError err =>
      Rejected ("Error: Internal Error Making POST Request to Cache Service - " ++ err)
  | HttpResponse statusCode _ =>
      if negb (statusCode =? 200)
      then Rejected ("Error: POST Request to Cache Service failed - " ++ "[object Object]")
      else Resolved true
  end.

Definition saveToCache (env : processEnv) (numberOfPills numberOfPermutations : Z)
  : prog (settled bool) :=
  answer <- perform (Request (cachePost env numberOfPills numberOfPermutations)) ;;
  Ret (saveToCache_settle answer).

(** [deferTask] *)
Definition deferPost (env : processEnv) (id : string) (numberOfPills : Z)
  : Http.request :=
  {| Http.url := envString (deferUrl env) ++ "/" ++ id;
     Http.method := "POST";
     Http.qs := [];
     Http.body := [("pills", toString numberOfPills)];
     Http.headers := [];
     Http.json := true |}.

Definition deferTask_settle (id : string) (answer : http_result) : settled string :=
  match answer with
  | HttpError err =>
      Rejected ("Error: Internal Error Making POST Request to Defer Service - " ++ err)
  | HttpResponse statusCode _ =>
      if negb (statusCode =? 200)
      then Rejected ("Error: POST Request to Defer Service Failed - " ++ "[object Object]")
      else Resolved id
  end.

Definition deferTask (env : processEnv) (numberOfPills : Z) : prog (settled string) :=
  id <- perform UUID ;;
  answer <- perform (Request (deferPost env id numberOfPills)) ;;
  Ret (deferTask_settle id answer).

(** The event of the Lambda: [event.queryStringParameters] is absent or
    holds [pills] ([JUndefined] when the parameter is missing). *)
Record queryString : Type := { pills : jsval }.
Record lambdaEvent : Type := { queryStringParameters : option queryString }.

(** [pills] after the line that replaces it by [parseInt(pills)] unless it
    is a number already; [None] is [NaN]. *)
Definition pillsNumber (pills : jsval) : option Z :=
  match pills with
  | JNum n => Some n
  | JNaN => None
  | _ => parseInt (ToString pills)
  end.

Definition missingPills : response :=
  prepareResponse 400 (Message "You must provide the `pills` querystring parameter!").

(** Cache miss: compute up to 43 pills, defer above. *)
Definition onCacheMiss (env : processEnv) (pills : Z) : prog unit :=
  if pills <=? 43 then
    perform (consoleLog [JStr "Pills = "; JNum pills]) ;;
    numberOfPermutations <-
      perform (counter (JNum pills) (getNumberOfPermutations pills)) ;;
    perform (consoleLog [JStr "permutations = "; JNum numberOfPermutations]) ;;
    perform (callback None
               (Some (prepareResponse 200 (Complete (JNum numberOfPermutations))))) ;;
    cached <- saveToCache env pills numberOfPermutations ;;
    match cached with
    | Resolved _ => Ret tt
    | Rejected e => perform (consoleLog [JStr e])
    end
  else
    deferred <- deferTask env pills ;;
    match deferred with
    | Resolved taskId =>
        if truthy (JStr taskId)
        then perform (callback None
                        (Some (prepareResponse 202
                                 (Deferred (envString (deferUrl env) ++ "/" ++ taskId)
                                    taskId))))
        else Ret tt
    | Rejected e =>
        perform (callback (Some e)
                   (Some (prepareResponse 500 (Failed "Internal Error!"))))
    end.

(** From the cache check on, for a validated number of pills. *)
Definition checkCache (env : processEnv) (pills : Z) : prog unit :=
  cached <- getFromCache env pills ;;
  match cached with
  | Resolved numberOfPermutations =>
      if truthy numberOfPermutations
      then perform (callback None
                      (Some (prepareResponse 200 (Complete numberOfPermutations))))
      else onCacheMiss env pills
  | Rejected e =>
      perform (consoleLog [JStr e]) ;;
      onCacheMiss env pills
  end.

Definition handler (env : processEnv) (event : lambdaEvent) : prog unit :=
  if negb (isSet (cacheUrl env)) then
    perform (callback (Some "Error: The `cacheUrl` environment variable was not set") None)
  else if negb (isSet (deferUrl env)) then
    perform (callback (Some "Error: The `deferUrl` environment variable was not set") None)
  else
    match queryStringParameters event with
    | None => perform (callback None (Some missingPills))
    | Some q =>
        if negb (truthy (pills q)) then perform (callback None (Some missingPills))
        else
          match pillsNumber (pills q) with
          | None =>
              perform (callback None
                         (Some (prepareResponse 400 (Message "Pills must be a valid number!"))))
          | Some n =>
              if (n <? 1) || (n >? 47) then
                perform (callback None
                           (Some (prepareResponse 400
                                    (Message "Pills must be a number between 1 and !"))))
              else checkCache env n
          end
    end.

End Dispatcher.

(** ** Totals in a stream record

    The workers read the total from [record.dynamodb....pills.N].  The
    JSDoc of their Counter asks for an int; a DynamoDB stream writes the
    [N] of an attribute as the text of the numeral.  Both are covered: a
    total is a number, or a text given with the number it converts to
    where it is compared with a number. *)

Inductive total : Type :=
| Number (n : Z)
| Numeral (text : string) (value : Z).

Definition valueOf (t : total) : Z :=
  match t with
  | Number n => n
  | Numeral _ value => value
  end.

Definition jsOf (t : total) : jsval :=
  match t with
  | Number n => JNum n
  | Numeral text _ => JStr text
  end.

(** [a > b]: two texts compare as strings, anything else as numbers. *)
Definition greater (a b : total) : bool :=
  match a, b with
  | Numeral s _, Numeral t _ => String.ltb t s
  | _, _ => valueOf a >? valueOf b
  end.

(** [a === b]: never between a number and a text. *)
Definition strictEqual (a b : total) : bool :=
  match a, b with
  | Number n, Number m => n =? m
  | Numeral s _, Numeral t _ => String.eqb s t
  | _, _ => false
  end.

(** [t.toString()] *)
Definition totalToString (t : total) : string :=
  match t with
  | Number n => toString n
  | Numeral text _ => text
  end.

(** ** The deferred worker, first version (second handler of the file)

    Its Counter differs from the dispatcher's in one place: the recursive
    call is [findPermutations(numberOfPills, sum+i)].  [findPermutations]
    has one parameter, so the callee's [sum] is [numberOfPills] and the
    second argument is dropped.  (The same file declares [const id] inside
    [updateTask(id, ...)], which an engine refuses to load; only the
    Counter is embedded.) *)

Module DeferredWorkerV1.

(** Nested calls still ahead of the call on [sum]: none once [sum] is
    [numberOfPills] itself. *)
Definition callsAhead (numberOfPills sum : total) : nat :=
  if strictEqual sum numberOfPills then 0%nat else 1%nat.

Equations? findPermutations (numberOfPills sum : total) (numberOfPermutations : Z) : Z
  by wf (callsAhead numberOfPills sum) lt :=
  findPermutations numberOfPills sum acc
    with sumbool_of_bool (greater sum numberOfPills) := {
    | left _ := acc;
    | right _ with sumbool_of_bool (strictEqual sum numberOfPills) := {
        | left _ := acc + 1;
        | right _ :=
            findPermutations numberOfPills numberOfPills
              (findPermutations numberOfPills numberOfPills acc) } }.
Proof.
  all: unfold callsAhead;
    match goal with H : strictEqual _ _ = false |- _ => rewrite H end;
    destruct numberOfPills; cbn [strictEqual];
    rewrite ?Z.eqb_refl, ?String.eqb_refl; lia.
Qed.

Definition getNumberOfPermutations (numberOfPills : total) : Z :=
  let numberOfPermutations := 0 in
  findPermutations numberOfPills (Number 0) numberOfPermutations.

End DeferredWorkerV1.

(** ** The deferred worker, second version (third handler of the file)

    The text of its [getNumberOfPermutations] and [saveToCache] is the
    dispatcher's; here [numberOfPills] comes from the stream record. *)

Module DeferredWorker.

Equations? findPermutations (numberOfPills : total) (sum numberOfPermutations : Z) : Z
  by wf (Z.to_nat (valueOf numberOfPills - sum + 1)) lt :=
  findPermutations numberOfPills sum acc
    with Z_gt_dec sum (valueOf numberOfPills) := {
    | left _ := acc;
    | right _ with strictEqual (Number sum) numberOfPills := {
        | true := acc + 1;
        | false :=
            findPermutations numberOfPills (sum + maxPillsPerDay)
              (findPermutations numberOfPills (sum + minPillsPerDay) acc) } }.
Proof. all: unfold minPillsPerDay, maxPillsPerDay; lia. Qed.

Definition getNumberOfPermutations (numberOfPills : total) : Z :=
  let numberOfPermutations := 0 in
  findPermutations numberOfPills 0 numberOfPermutations.

(** One record of the stream: [record.eventName],
    [record.dynamodb.Keys.id.S], [record.dynamodb.NewImage.pills.N]. *)
Record streamRecord : Type := {
  eventName : string;
  Keys_id : string;
  NewImage_pills : total }.

Record streamEvent : Type := { Records : list streamRecord }.

(** [saveToCache] *)
Definition cachePost (env : processEnv) (numberOfPills : total)
  (numberOfPermutations : Z) : Http.request :=
  {| Http.url := envString (cacheUrl env);
     Http.method := "POST";
     Http.qs := [];
     Http.body := [("pills", totalToString numberOfPills);
                   ("permutations", toString numberOfPermutations)];
     Http.headers := [];
     Http.json := true |}.

Definition saveToCache (env : processEnv) (numberOfPills : total)
  (numberOfPermutations : Z) : prog (settled bool) :=
  answer <- perform (Request (cachePost env numberOfPills numberOfPermutations)) ;;
  Ret (Dispatcher.saveToCache_settle answer).

(** [updateTask(id, status, permutations)]; [permutations] is [None] where
    the call passes two arguments. *)
Definition taskPut (env : processEnv) (id status : string) (permutations : option Z)
  : Http.request :=
  {| Http.url := envString (deferUrl env) ++ "/" ++ id;
     Http.method := "PUT";
     Http.qs := [];
     Http.body :=
       [("status", status);
        ("permutations",
          match permutations with
          | Some c => if truthy (JNum c) then toString c else "0"
          | None => "0"
          end)];
     Http.headers := [];
     Http.json := true |}.

Definition updateTask_settle (answer : http_result) : settled bool :=
  match answer with
  | HttpError err =>
      Rejected ("Error: Internal Error Making POST Request to Defer Service - " ++ err)
  | HttpResponse statusCode _ =>
      if negb (statusCode =? 200)
      then Rejected ("Error: POST Request to Defer Service Failed - " ++ "[object Object]")
      else Resolved true
  end.

Definition updateTask (env : processEnv) (id status : string) (permutations : option Z)
  : prog (settled bool) :=
  answer <- perform (Request (taskPut env id status permutations)) ;;
  Ret (updateTask_settle answer).

(** [try { await p } catch (e) { console.log(e) }] *)
Definition logRejection {A : Type} (p : prog (settled A)) : prog unit :=
  r <- p ;;
  match r with
  | Resolved _ => Ret tt
  | Rejected e => perform (consoleLog [JStr e])
  end.

(** The function mapped over [event.Records]. *)
Definition processRecord (env : processEnv) (record : streamRecord) : prog unit :=
  if String.eqb (eventName record) "INSERT" then
    logRejection (updateTask env (Keys_id record) "IN_PROGRESS" None) ;;
    numberOfPermutations <-
      perform (counter (jsOf (NewImage_pills record))
                 (getNumberOfPermutations (NewImage_pills record))) ;;
    logRejection (updateTask env (Keys_id record) "COMPLETE" (Some numberOfPermutations)) ;;
    logRejection (saveToCache env (NewImage_pills record) numberOfPermutations)
  else Ret tt.

Fixpoint forEach (env : processEnv) (records : list streamRecord) : prog unit :=
  match records with
  | [] => Ret tt
  | record :: rest => processRecord env record ;; forEach env rest
  end.

(** [Promise.all] starts the functions of all records together and they
    take turns at their awaits; no record reads what another one wrote.
    The model runs the records one after the other, which is the run of
    the source for an event of one record. *)
Definition handler (env : processEnv) (event : streamEvent) : prog unit :=
  if negb (isSet (cacheUrl env)) then
    perform (callback (Some "Error: The `cacheUrl` environment variable was not set") None)
  else if negb (isSet (deferUrl env)) then
    perform (callback (Some "Error: The `deferUrl` environment variable was not set") None)
  else
    forEach env (Records event) ;;
    perform (callback None None).

End DeferredWorker.

(** ** The accumulator as a double

    [numberOfPermutations++] on a JavaScript number.  Counting up from 0 the
    accumulator holds every integer up to 2^53 exactly; 2^53 + 1 is not a
    double and rounds back to 2^53 (ties to even), so from there [++] leaves
    the accumulator where it is.  [increment] is that operation on an
    accumulator between 0 and 2^53; the running sum stays far below 2^53
    for any total a run can finish, and is exact.

    [Double.findPermutations] is the [findPermutations] of the dispatcher
    with this increment. *)

Module Double.

(** 2^53 *)
Definition limit : Z := 9007199254740992.

Definition increment (numberOfPermutations : Z) : Z :=
  if numberOfPermutations <? limit then numberOfPermutations + 1
  else numberOfPermutations.

Equations? findPermutations (numberOfPills sum numberOfPermutations : Z) : Z
  by wf (Z.to_nat (numberOfPills - sum + 1)) lt :=
  findPermutations numberOfPills sum acc with Z_gt_dec sum numberOfPills := {
    | left _ := acc;
    | right _ with Z.eq_dec sum numberOfPills := {
        | left _ := increment acc;
        | right _ :=
            findPermutations numberOfPills (sum + maxPillsPerDay)
              (findPermutations numberOfPills (sum + minPillsPerDay) acc) } }.
Proof. all: unfold minPillsPerDay, maxPillsPerDay; lia. Qed.

Definition getNumberOfPermutations (numberOfPills : Z) : Z :=
  let numberOfPermutations := 0 in
  findPermutations numberOfPills 0 numberOfPermutations.

End Double.

(** ** The stand-alone script [getNumberOfPermutations.js]

    Here [numberOfPermutations] is a variable of the module and the
    function takes the running sum as its second parameter.  The global is
    threaded: last argument before the call, result after it; it is
    incremented as a double is.  ([test.js] holds the same function, for 48
    pills.) *)

Module Script.

Definition totalPills : Z := 43.

Equations? getNumberOfPermutations (totalPills sum numberOfPermutations : Z) : Z
  by wf (Z.to_nat (totalPills - sum + 1)) lt :=
  getNumberOfPermutations totalPills sum global with Z_gt_dec sum totalPills := {
    | left _ := global;
    | right _ with Z.eq_dec sum totalPills := {
        | left _ := Double.increment global;
        | right _ :=
            getNumberOfPermutations totalPills (sum + maxPillsPerDay)
              (getNumberOfPermutations totalPills (sum + minPillsPerDay) global) } }.
Proof. all: unfold minPillsPerDay, maxPillsPerDay; lia. Qed.

(** The script: the global starts at 0, one call, the global is printed. *)
Definition main : Z :=
  let numberOfPermutations := 0 in
  getNumberOfPermutations totalPills 0 numberOfPermutations.


End Script.

(** ** The recursion of the Counter as the source runs it

    [returns total sum acc acc'] : the call [findPermutations(sum)], entered
    with the accumulator at [acc], returns with the accumulator at [acc'].
    [calls total callee caller] : the activation on [caller] makes the call
    on [callee]. *)


Inductive calls (numberOfPills : Z) : Z -> Z -> Prop :=
| calls_loop (sum i : Z) :
    sum < numberOfPills ->
    minPillsPerDay <= i <= maxPillsPerDay ->
    calls numberOfPills (sum + i) sum.

(** ** The count of the specification

    In the spec's words: [Count(0) = Count(1) = 1],
    [Count(n) = Count(n-1) + Count(n-2)], [Count(negative) = 0].
    [CountPair n] is [(Count n, Count (n+1))], built bottom-up. *)

Fixpoint CountPair (n : nat) : Z * Z :=
  match n with
  | O => (1, 1)
  | S k => let '(a, b) := CountPair k in (b, a + b)
  end.

Definition Count (n : Z) : Z :=
  if n <? 0 then 0 else fst (CountPair (Z.to_nat n)).

(** ** Requests and worlds used to state the properties *)

(** The event of a request with the given [pills] parameter. *)
Definition askFor (pills : jsval) : Dispatcher.lambdaEvent :=
  {| Dispatcher.queryStringParameters := Some {| Dispatcher.pills := pills |} |}.

(** Both environment variables are set. *)
Definition configured (env : processEnv) : Prop :=
  isSet (cacheUrl env) = true /\ isSet (deferUrl env) = true.

Definition sampleEnv : processEnv :=
  {| cacheUrl := Some "https://cache.example/permutations";
     deferUrl := Some "https://defer.example/tasks" |}.

(** A world whose cache answers every GET with [cached] and every other
    request of method [m] with status [status m]. *)
Definition sampleWorld (cached : http_result) (status : string -> Z) : world :=
  {| http := fun options =>
       if String.eqb (Http.method options) "GET" then cached
       else HttpResponse (status (Http.method options)) (Parsed JUndefined);
     uuid := "6c84fb90-12c4-11e1-840d-7b25c5ee775a" |}.

Definition emptyCache : http_result := HttpResponse 200 (Parsed JUndefined).
Definition allFine (method : string) : Z := 200.
Definition allDown (method : string) : Z := 503.

(** The response of the synchronous path. *)
Definition completed (n : Z) : response :=
  prepareResponse 200 (Complete (JNum (Dispatcher.getNumberOfPermutations n))).

(** The cache gave no stored value: a miss, or a failure of the Get. *)
Definition noHit (cached : settled jsval) : Prop :=
  cached = Resolved (JBool false) \/ exists e : string, cached = Rejected e.

(** The responses of the deferral path. *)
Definition deferredTo (env : processEnv) (taskId : string) : response :=
  prepareResponse 202 (Deferred (envString (deferUrl env) ++ "/" ++ taskId) taskId).

Definition internalError : response :=
  prepareResponse 500 (Failed "Internal Error!").

(** What a run of the dispatcher on a request for [pills] leaves behind. *)
Definition Handle (env : processEnv) (w : world) (pills : jsval) : list event :=
  trace w (Dispatcher.handler env (askFor pills)).

(** ** What a call of the Counter costs

    The same recursion as [Dispatcher.findPermutations], counting instead
    of accumulating: [activations total sum] is the number of activations
    of [findPermutations] that the call on [sum] brings about, itself
    included, and [depth total sum] the largest number of them that are
    active at once. *)

Equations? activations (numberOfPills sum : Z) : Z
  by wf (Z.to_nat (numberOfPills - sum + 1)) lt :=
  activations numberOfPills sum with Z_gt_dec sum numberOfPills := {
    | left _ := 1;
    | right _ with Z.eq_dec sum numberOfPills := {
        | left _ := 1;
        | right _ :=
            1 + activations numberOfPills (sum + minPillsPerDay)
              + activations numberOfPills (sum + maxPillsPerDay) } }.
Proof. all: unfold minPillsPerDay, maxPillsPerDay; lia. Qed.

Equations? depth (numberOfPills sum : Z) : Z
  by wf (Z.to_nat (numberOfPills - sum + 1)) lt :=
  depth numberOfPills sum with Z_gt_dec sum numberOfPills := {
    | left _ := 1;
    | right _ with Z.eq_dec sum numberOfPills := {
        | left _ := 1;
        | right _ :=
            1 + Z.max (depth numberOfPills (sum + minPillsPerDay))
                  (depth numberOfPills (sum + maxPillsPerDay)) } }.
Proof. all: unfold minPillsPerDay, maxPillsPerDay; lia. Qed.

(** ** The stand-alone script [test.js]

    The function of [getNumberOfPermutations.js] under the same name, its
    first parameter called [numberOfPills]; the script runs it on 48. *)

Module TestScript.

Definition numberOfPills : Z := 48.

Equations? getNumberOfPermutations (numberOfPills sum numberOfPermutations : Z) : Z
  by wf (Z.to_nat (numberOfPills - sum + 1)) lt :=
  getNumberOfPermutations numberOfPills sum global with Z_gt_dec sum numberOfPills := {
    | left _ := global;
    | right _ with Z.eq_dec sum numberOfPills := {
        | left _ := Double.increment global;
        | right _ :=
            getNumberOfPermutations numberOfPills (sum + maxPillsPerDay)
              (getNumberOfPermutations numberOfPills (sum + minPillsPerDay) global) } }.
Proof. all: unfold minPillsPerDay, maxPillsPerDay; lia. Qed.

Definition main : Z :=
  let numberOfPermutations := 0 in
  getNumberOfPermutations numberOfPills 0 numberOfPermutations.

End TestScript.

(** ** Text after a numeral

    [parseInt] stops reading at the first character that is not a decimal
    digit: the end of the string, or a character that is no digit or is a
    letter. *)

Definition endsNumeral (rest : string) : bool :=
  match rest with
  | EmptyString => true
  | String c _ =>
      match digitValue c with
      | Some d => 10 <=? d
      | None => true
      end
  end.

(** ** Vocabulary for the properties of whole runs *)

(** The cache gave a stored value the handler takes: [if (numberOfPermutations)]. *)
Definition isHit (cached : settled jsval) : bool :=
  match cached with
  | Resolved stored => truthy stored
  | Rejected _ => false
  end.

(** The answer makes the promise of the request reject: a transport error
    or a status other than 200. *)
Definition refused (answer : http_result) : bool :=
  match answer with
  | HttpError _ => true
  | HttpResponse statusCode _ => negb (statusCode =? 200)
  end.

(** The log lines of a run, and the answers of its requests. *)
Fixpoint logged (t : list event) : list (list jsval) :=
  match t with
  | [] => []
  | Logged args :: t' => args :: logged t'
  | _ :: t' => logged t'
  end.

Fixpoint answers (t : list event) : list http_result :=
  match t with
  | [] => []
  | Requested _ answer :: t' => answer :: answers t'
  | _ :: t' => answers t'
  end.

(** The responses given to the callback in a run. *)
Fixpoint responses (t : list event) : list response :=
  match t with
  | [] => []
  | CalledBack _ (Some r) :: t' => r :: responses t'
  | _ :: t' => responses t'
  end.

Definition isInsert (record : DeferredWorker.streamRecord) : bool :=
  String.eqb (DeferredWorker.eventName record) "INSERT".

(** * Properties *)

Example parseInt_examples :
  (parseInt "43", parseInt " 12px", parseInt "0x1F", parseInt "-7", parseInt "abc", parseInt "", parseInt "1e3", parseInt "47.9", parseInt "0x")%string
  = (Some 43, Some 12, Some 31, Some (-7), None, None, Some 1, Some 47, None).
Proof. reflexivity. Qed.

(** ** The Counter *)

Section CounterFacts.

Import Dispatcher.

(** The body of [findPermutations], as one equation. *)
Lemma findPermutations_body (numberOfPills sum acc : Z) :
  findPermutations numberOfPills sum acc =
    if sum >? numberOfPills then acc
    else if sum =? numberOfPills then acc + 1
    else findPermutations numberOfPills (sum + maxPillsPerDay)
           (findPermutations numberOfPills (sum + minPillsPerDay) acc).
Proof.
  rewrite (findPermutations_equation_1 numberOfPills sum acc).
  destruct (Z_gt_dec sum numberOfPills) as [Hgt | Hgt]; simpl.
  - destruct (Z.gtb_spec sum numberOfPills); [reflexivity | lia].
  - destruct (Z.gtb_spec sum numberOfPills); [lia |].
    destruct (Z.eq_dec sum numberOfPills) as [He | He]; simpl.
    + rewrite (proj2 (Z.eqb_eq _ _) He). reflexivity.
    + rewrite (proj2 (Z.eqb_neq _ _) He). reflexivity.
Qed.

(** A call adds to the accumulator what it finds, whatever the accumulator
    held. *)
Lemma findPermutations_frame (numberOfPills sum acc : Z) :
  findPermutations numberOfPills sum acc
  = acc + findPermutations numberOfPills sum 0.
Proof.
  remember (Z.to_nat (numberOfPills - sum + 1)) as m eqn:Hm.
  revert sum acc Hm.
  induction m as [m IH] using lt_wf_ind; intros sum acc Hm.
  rewrite (findPermutations_body numberOfPills sum acc).
  rewrite (findPermutations_body numberOfPills sum 0).
  destruct (Z.gtb_spec sum numberOfPills); [lia |].
  destruct (Z.eqb_spec sum numberOfPills); [lia |].
  unfold minPillsPerDay, maxPillsPerDay.
  rewrite (IH (Z.to_nat (numberOfPills - (sum + 2) + 1)))
    with (acc := findPermutations numberOfPills (sum + 1) acc) by lia.
  rewrite (IH (Z.to_nat (numberOfPills - (sum + 1) + 1)))
    with (acc := acc) by lia.
  rewrite (IH (Z.to_nat (numberOfPills - (sum + 2) + 1)))
    with (acc := findPermutations numberOfPills (sum + 1) 0) by lia.
  lia.
Qed.

(** Only the distance from the running sum to the total matters. *)
Lemma findPermutations_shift (numberOfPills sum acc d : Z) :
  findPermutations (numberOfPills + d) (sum + d) acc
  = findPermutations numberOfPills sum acc.
Proof.
  remember (Z.to_nat (numberOfPills - sum + 1)) as m eqn:Hm.
  revert sum acc Hm.
  induction m as [m IH] using lt_wf_ind; intros sum acc Hm.
  rewrite (findPermutations_body (numberOfPills + d)).
  rewrite (findPermutations_body numberOfPills).
  replace (sum + d >? numberOfPills + d) with (sum >? numberOfPills)
    by (destruct (Z.gtb_spec sum numberOfPills);
        destruct (Z.gtb_spec (sum + d) (numberOfPills + d)); lia || reflexivity).
  replace (sum + d =? numberOfPills + d) with (sum =? numberOfPills)
    by (destruct (Z.eqb_spec sum numberOfPills);
        destruct (Z.eqb_spec (sum + d) (numberOfPills + d)); lia || reflexivity).
  destruct (Z.gtb_spec sum numberOfPills); [reflexivity |].
  destruct (Z.eqb_spec sum numberOfPills); [reflexivity |].
  unfold minPillsPerDay, maxPillsPerDay.
  replace (sum + d + 1) with (sum + 1 + d) by lia.
  replace (sum + d + 2) with (sum + 2 + d) by lia.
  rewrite (IH (Z.to_nat (numberOfPills - (sum + 1) + 1))) with (sum := sum + 1)
    by lia.
  rewrite (IH (Z.to_nat (numberOfPills - (sum + 2) + 1))) with (sum := sum + 2)
    by lia.
  reflexivity.
Qed.

Lemma findPermutations_from (numberOfPills sum : Z) :
  findPermutations numberOfPills sum 0 = getNumberOfPermutations (numberOfPills - sum).
Proof.
  unfold getNumberOfPermutations.
  rewrite <- (findPermutations_shift (numberOfPills - sum) 0 0 sum).
  f_equal; lia.
Qed.

Lemma getNumberOfPermutations_negative (n : Z) :
  n < 0 -> getNumberOfPermutations n = 0.
Proof.
  intros Hn. unfold getNumberOfPermutations.
  rewrite findPermutations_body.
  destruct (Z.gtb_spec 0 n); [reflexivity | lia].
Qed.

Lemma getNumberOfPermutations_0 : getNumberOfPermutations 0 = 1.
Proof. reflexivity. Qed.

Lemma getNumberOfPermutations_step (n : Z) :
  1 <= n ->
  getNumberOfPermutations n
  = getNumberOfPermutations (n - 1) + getNumberOfPermutations (n - 2).
Proof.
  intros Hn. unfold getNumberOfPermutations at 1.
  rewrite findPermutations_body.
  destruct (Z.gtb_spec 0 n); [lia |].
  destruct (Z.eqb_spec 0 n); [lia |].
  unfold minPillsPerDay, maxPillsPerDay.
  rewrite findPermutations_frame.
  rewrite !findPermutations_from.
  f_equal.
Qed.

End CounterFacts.

Section CounterAgainstSpec.

Import Dispatcher.

Lemma CountPair_spec (k : nat) :
  CountPair k
  = (getNumberOfPermutations (Z.of_nat k), getNumberOfPermutations (Z.of_nat k + 1)).
Proof.
  induction k as [| k IH].
  - reflexivity.
  - cbn [CountPair]. rewrite IH.
    rewrite (getNumberOfPermutations_step (Z.of_nat (S k) + 1)) by lia.
    replace (Z.of_nat (S k) + 1 - 1) with (Z.of_nat k + 1) by lia.
    replace (Z.of_nat (S k) + 1 - 2) with (Z.of_nat k) by lia.
    replace (Z.of_nat (S k)) with (Z.of_nat k + 1) by lia.
    f_equal. lia.
Qed.

(** The Counter computes the count of the specification. *)
Lemma getNumberOfPermutations_Count (n : Z) :
  getNumberOfPermutations n = Count n.
Proof.
  unfold Count. destruct (Z.ltb_spec n 0) as [Hn | Hn].
  - apply getNumberOfPermutations_negative; assumption.
  - rewrite CountPair_spec. cbn [fst]. f_equal. lia.
Qed.

Lemma CountPair_positive (k : nat) :
  1 <= fst (CountPair k) /\ 1 <= snd (CountPair k).
Proof.
  induction k as [| k IH]; cbn [CountPair].
  - cbn. lia.
  - destruct (CountPair k) as [a b]. cbn in *. lia.
Qed.

Lemma getNumberOfPermutations_positive (n : Z) :
  0 <= n -> 1 <= getNumberOfPermutations n.
Proof.
  intros Hn. rewrite getNumberOfPermutations_Count. unfold Count.
  destruct (Z.ltb_spec n 0); [lia |]. apply CountPair_positive.
Qed.

Lemma getNumberOfPermutations_monotone (n m : Z) :
  0 <= n <= m -> getNumberOfPermutations n <= getNumberOfPermutations m.
Proof.
  intros [Hn Hm].
  replace m with (n + Z.of_nat (Z.to_nat (m - n))) by lia.
  induction (Z.to_nat (m - n)) as [| d IH].
  - replace (n + Z.of_nat 0) with n by lia. lia.
  - rewrite (getNumberOfPermutations_step (n + Z.of_nat (S d))) by lia.
    replace (n + Z.of_nat (S d) - 1) with (n + Z.of_nat d) by lia.
    assert (0 <= getNumberOfPermutations (n + Z.of_nat (S d) - 2)).
    { destruct (Z.ltb_spec (n + Z.of_nat (S d) - 2) 0).
      - rewrite getNumberOfPermutations_negative by lia. lia.
      - pose proof (getNumberOfPermutations_positive (n + Z.of_nat (S d) - 2)). lia. }
    lia.
Qed.

Lemma getNumberOfPermutations_43 : getNumberOfPermutations 43 = 701408733.
Proof. rewrite getNumberOfPermutations_Count. vm_compute. reflexivity. Qed.

Lemma getNumberOfPermutations_44 : getNumberOfPermutations 44 = 1134903170.
Proof. rewrite getNumberOfPermutations_Count. vm_compute. reflexivity. Qed.

Lemma getNumberOfPermutations_47 : getNumberOfPermutations 47 = 4807526976.
Proof. rewrite getNumberOfPermutations_Count. vm_compute. reflexivity. Qed.

(** Over the accepted domain the accumulator stays far below 2^53, where
    the numbers of the program are exact integers. *)
Lemma count_domain_exact (n : Z) :
  0 <= n <= 47 -> 1 <= getNumberOfPermutations n < 2 ^ 53.
Proof.
  intros Hn. split.
  - apply getNumberOfPermutations_positive; lia.
  - pose proof (getNumberOfPermutations_monotone n 47 ltac:(lia)) as Hle.
    rewrite getNumberOfPermutations_47 in Hle. lia.
Qed.

End CounterAgainstSpec.

(** ** The accumulator at 2^53 *)

Section DoubleAccumulator.

Import Dispatcher.

Lemma getNumberOfPermutations_76 : getNumberOfPermutations 76 = 5527939700884757.
Proof. rewrite getNumberOfPermutations_Count. vm_compute. reflexivity. Qed.

Lemma getNumberOfPermutations_77 : getNumberOfPermutations 77 = 8944394323791464.
Proof. rewrite getNumberOfPermutations_Count. vm_compute. reflexivity. Qed.

Lemma getNumberOfPermutations_78 : getNumberOfPermutations 78 = 14472334024676221.
Proof. rewrite getNumberOfPermutations_Count. vm_compute. reflexivity. Qed.

Lemma getNumberOfPermutations_nonneg (n : Z) :
  0 <= getNumberOfPermutations n.
Proof.
  destruct (Z.ltb_spec n 0).
  - rewrite getNumberOfPermutations_negative by lia. lia.
  - pose proof (getNumberOfPermutations_positive n). lia.
Qed.

Lemma limit_pow : Double.limit = 2 ^ 53.
Proof. reflexivity. Qed.

Lemma increment_min (x : Z) :
  x <= Double.limit -> Double.increment x = Z.min Double.limit (x + 1).
Proof.
  intros Hx. unfold Double.increment.
  destruct (Z.ltb_spec x Double.limit); lia.
Qed.

(** The body of [Double.findPermutations], as one equation. *)
Lemma double_body (numberOfPills sum acc : Z) :
  Double.findPermutations numberOfPills sum acc =
    if sum >? numberOfPills then acc
    else if sum =? numberOfPills then Double.increment acc
    else Double.findPermutations numberOfPills (sum + maxPillsPerDay)
           (Double.findPermutations numberOfPills (sum + minPillsPerDay) acc).
Proof.
  rewrite (Double.findPermutations_equation_1 numberOfPills sum acc).
  destruct (Z_gt_dec sum numberOfPills) as [Hgt | Hgt]; simpl.
  - destruct (Z.gtb_spec sum numberOfPills); [reflexivity | lia].
  - destruct (Z.gtb_spec sum numberOfPills); [lia |].
    destruct (Z.eq_dec sum numberOfPills) as [He | He]; simpl.
    + rewrite (proj2 (Z.eqb_eq _ _) He). reflexivity.
    + rewrite (proj2 (Z.eqb_neq _ _) He). reflexivity.
Qed.

(** The accumulator ends at what the recursion on integers gives, cut at
    2^53. *)
Lemma double_findPermutations_min (numberOfPills sum acc : Z) :
  acc <= Double.limit ->
  Double.findPermutations numberOfPills sum acc
  = Z.min Double.limit (acc + getNumberOfPermutations (numberOfPills - sum)).
Proof.
  remember (Z.to_nat (numberOfPills - sum + 1)) as m eqn:Hm.
  revert sum acc Hm.
  induction m as [m IH] using lt_wf_ind; intros sum acc Hm Hacc.
  rewrite double_body.
  destruct (Z.gtb_spec sum numberOfPills).
  - rewrite getNumberOfPermutations_negative by lia. lia.
  - destruct (Z.eqb_spec sum numberOfPills).
    + replace (numberOfPills - sum) with 0 by lia.
      rewrite getNumberOfPermutations_0. apply increment_min; assumption.
    + unfold minPillsPerDay, maxPillsPerDay.
      rewrite (IH (Z.to_nat (numberOfPills - (sum + 1) + 1)))
        with (sum := sum + 1) (acc := acc) by lia.
      rewrite (IH (Z.to_nat (numberOfPills - (sum + 2) + 1)))
        with (sum := sum + 2) by lia.
      rewrite (getNumberOfPermutations_step (numberOfPills - sum)) by lia.
      replace (numberOfPills - sum - 1) with (numberOfPills - (sum + 1)) by lia.
      replace (numberOfPills - sum - 2) with (numberOfPills - (sum + 2)) by lia.
      pose proof (getNumberOfPermutations_nonneg (numberOfPills - (sum + 1))).
      pose proof (getNumberOfPermutations_nonneg (numberOfPills - (sum + 2))).
      lia.
Qed.

Lemma double_counter (n : Z) :
  Double.getNumberOfPermutations n = Z.min Double.limit (getNumberOfPermutations n).
Proof.
  unfold Double.getNumberOfPermutations.
  rewrite double_findPermutations_min by discriminate.
  rewrite Z.sub_0_r. reflexivity.
Qed.

(** Up to 77 pills the count stays below 2^53 and the two Counters agree. *)
Lemma count_below_limit (n : Z) :
  n <= 77 -> getNumberOfPermutations n < Double.limit.
Proof.
  intros Hn. destruct (Z.ltb_spec n 0).
  - rewrite getNumberOfPermutations_negative by lia. reflexivity.
  - pose proof (getNumberOfPermutations_monotone n 77 ltac:(lia)) as Hle.
    rewrite getNumberOfPermutations_77 in Hle. unfold Double.limit. lia.
Qed.

Lemma double_agrees (n : Z) :
  n <= 77 -> Double.getNumberOfPermutations n = getNumberOfPermutations n.
Proof.
  intros Hn. rewrite double_counter.
  pose proof (count_below_limit n Hn). lia.
Qed.

(** From 78 pills on the accumulator stops at 2^53. *)
Lemma double_stops (n : Z) :
  78 <= n -> Double.getNumberOfPermutations n = Double.limit.
Proof.
  intros Hn. rewrite double_counter.
  pose proof (getNumberOfPermutations_monotone 78 n ltac:(lia)) as Hle.
  rewrite getNumberOfPermutations_78 in Hle. unfold Double.limit in *. lia.
Qed.

End DoubleAccumulator.

Section CounterRecursion.

Import Dispatcher.

Lemma calls_decreases (numberOfPills callee caller : Z) :
  calls numberOfPills callee caller ->
  (Z.to_nat (numberOfPills - callee + 1) < Z.to_nat (numberOfPills - caller + 1))%nat.
Proof.
  intros [sum i Hlt Hi]. unfold minPillsPerDay, maxPillsPerDay in Hi. lia.
Qed.

Lemma calls_well_founded (numberOfPills : Z) : well_founded (calls numberOfPills).
Proof.
  apply (well_founded_lt_compat _ (fun sum => Z.to_nat (numberOfPills - sum + 1))).
  intros callee caller. apply calls_decreases.
Qed.



End CounterRecursion.

(** C1, as stated, against the code.  The law does not hold for every
    non-negative [n]: the accumulator is a double, which [++] no longer
    moves once it holds 2^53.  For 78 pills the Counter returns
    9007199254740992, and its results on 77 and on 76 pills,
    8944394323791464 and 5527939700884757, add up to 14472334024676221. *)
Lemma counter_stops_at_limit :
  ~ (forall n : Z,
       0 <= n ->
       Double.getNumberOfPermutations 0 = 1 /\
       Double.getNumberOfPermutations 1 = 1 /\
       (2 <= n ->
        Double.getNumberOfPermutations n
        = Double.getNumberOfPermutations (n - 1)
          + Double.getNumberOfPermutations (n - 2)) /\
       Double.getNumberOfPermutations 2 = 2 /\
       Double.getNumberOfPermutations 3 = 3 /\
       Double.getNumberOfPermutations 4 = 5 /\
       Double.getNumberOfPermutations 5 = 8).
Proof.
  intros Hlaw.
  destruct (Hlaw 78 ltac:(lia)) as (_ & _ & Hstep & _).
  specialize (Hstep ltac:(lia)).
  rewrite (double_stops 78) in Hstep by lia.
  rewrite (double_agrees (78 - 1)), (double_agrees (78 - 2)) in Hstep by lia.
  change (78 - 1) with 77 in Hstep. change (78 - 2) with 76 in Hstep.
  rewrite getNumberOfPermutations_77, getNumberOfPermutations_76 in Hstep.
  discriminate Hstep.
Qed.

(** C1, amended.  For every integer [n] from 0 to 77 the Counter of the
    dispatcher returns the Fibonacci-shifted count: 1 for [n = 0] and for
    [n = 1], and for every [n >= 2] the sum of its results on [n - 1] and
    [n - 2]; in particular 2, 3, 5, 8 for [n] = 2, 3, 4, 5.  It is the
    [Count] of the specification, it stays below 2^53, and it is what the
    recursion on integers gives. *)
Theorem counter_fibonacci_shifted (n : Z) :
  0 <= n <= 77 ->
  Double.getNumberOfPermutations 0 = 1 /\
  Double.getNumberOfPermutations 1 = 1 /\
  (2 <= n ->
   Double.getNumberOfPermutations n
   = Double.getNumberOfPermutations (n - 1)
     + Double.getNumberOfPermutations (n - 2)) /\
  Double.getNumberOfPermutations 2 = 2 /\
  Double.getNumberOfPermutations 3 = 3 /\
  Double.getNumberOfPermutations 4 = 5 /\
  Double.getNumberOfPermutations 5 = 8 /\
  Double.getNumberOfPermutations n = Count n /\
  Double.getNumberOfPermutations n < 2 ^ 53 /\
  Dispatcher.getNumberOfPermutations n = Double.getNumberOfPermutations n.
Proof.
  intros Hn. repeat split; try reflexivity.
  - intros H2. rewrite !double_agrees by lia.
    apply getNumberOfPermutations_step. lia.
  - rewrite double_agrees by lia. apply getNumberOfPermutations_Count.
  - rewrite double_agrees, <- limit_pow by lia. apply count_below_limit. lia.
  - symmetry. apply double_agrees. lia.
Qed.

Lemma counter_fibonacci_shifted_at_7 :
  0 <= 7 <= 77 /\ 2 <= 7 /\
  Double.getNumberOfPermutations 7
  = Double.getNumberOfPermutations (7 - 1)
    + Double.getNumberOfPermutations (7 - 2).
Proof.
  split; [lia |]. split; [lia |].
  apply (proj1 (proj2 (proj2 (counter_fibonacci_shifted 7 ltac:(lia))))). lia.
Defined.



(** ** Runs of the dispatcher *)

Section DispatcherRuns.

Import Dispatcher.

Variable env : processEnv.
Variable w : world.

Lemma run_bind {A B : Type} (p : prog A) (f : A -> prog B) :
  run w (bind p f) =
    let '(t1, a) := run w p in
    let '(t2, b) := run w (f a) in
    ((t1 ++ t2)%list, b).
Proof.
  induction p as [a | X e k IH]; cbn [bind run].
  - destruct (run w (f a)). reflexivity.
  - rewrite IH. destruct (run w (k (answer w e))) as [t1 a].
    destruct (run w (f a)) as [t2 b]. reflexivity.
Qed.

Lemma run_perform {X : Type} (e : effect X) :
  run w (perform e) = ([observe e (answer w e)], answer w e).
Proof. reflexivity. Qed.

Lemma run_getFromCache (n : Z) :
  run w (getFromCache env n)
  = ([Requested (cacheGet env n) (http w (cacheGet env n))],
     getFromCache_settle (http w (cacheGet env n))).
Proof. reflexivity. Qed.

Lemma run_saveToCache (n c : Z) :
  run w (saveToCache env n c)
  = ([Requested (cachePost env n c) (http w (cachePost env n c))],
     saveToCache_settle (http w (cachePost env n c))).
Proof. reflexivity. Qed.

Lemma run_deferTask (n : Z) :
  run w (deferTask env n)
  = ([Generated (uuid w);
      Requested (deferPost env (uuid w) n) (http w (deferPost env (uuid w) n))],
     deferTask_settle (uuid w) (http w (deferPost env (uuid w) n))).
Proof. reflexivity. Qed.

Lemma trace_onCacheMiss_compute (n : Z) :
  n <= 43 ->
  trace w (onCacheMiss env n)
  = ([Logged [JStr "Pills = "; JNum n];
     Counted (JNum n) (getNumberOfPermutations n);
     Logged [JStr "permutations = "; JNum (getNumberOfPermutations n)];
     CalledBack None (Some (completed n));
     Requested (cachePost env n (getNumberOfPermutations n))
       (http w (cachePost env n (getNumberOfPermutations n)))]
    ++ (match saveToCache_settle (http w (cachePost env n (getNumberOfPermutations n))) with
       | Resolved _ => []
       | Rejected e => [Logged [JStr e]]
       end))%list.
Proof.
  intros Hn. unfold trace, onCacheMiss.
  destruct (Z.leb_spec n 43); [| lia].
  cbn [bind perform run answer observe fst].
  rewrite run_bind, run_saveToCache.
  destruct (saveToCache_settle _); reflexivity.
Qed.

Lemma trace_onCacheMiss_defer (n : Z) :
  43 < n ->
  trace w (onCacheMiss env n)
  = ([Generated (uuid w);
     Requested (deferPost env (uuid w) n) (http w (deferPost env (uuid w) n))]
    ++ match deferTask_settle (uuid w) (http w (deferPost env (uuid w) n)) with
       | Resolved taskId =>
           if truthy (JStr taskId)
           then [CalledBack None
                   (Some (prepareResponse 202
                            (Deferred (envString (deferUrl env) ++ "/" ++ taskId) taskId)))]
           else []
       | Rejected e =>
           [CalledBack (Some e) (Some (prepareResponse 500 (Failed "Internal Error!")))]
       end)%list.
Proof.
  intros Hn. unfold trace, onCacheMiss.
  destruct (Z.leb_spec n 43); [lia |].
  rewrite run_bind, run_deferTask.
  destruct (deferTask_settle _ _) as [taskId | e]; [| reflexivity].
  destruct (truthy (JStr taskId)); reflexivity.
Qed.

Lemma trace_checkCache (n : Z) :
  trace w (checkCache env n)
  = Requested (cacheGet env n) (http w (cacheGet env n))
    :: match getFromCache_settle (http w (cacheGet env n)) with
       | Resolved stored =>
           if truthy stored
           then [CalledBack None (Some (prepareResponse 200 (Complete stored)))]
           else trace w (onCacheMiss env n)
       | Rejected e => Logged [JStr e] :: trace w (onCacheMiss env n)
       end.
Proof.
  unfold trace, checkCache. rewrite run_bind, run_getFromCache.
  destruct (getFromCache_settle _) as [stored | e].
  - destruct (truthy stored).
    + reflexivity.
    + destruct (run w (onCacheMiss env n)). reflexivity.
  - rewrite run_bind, run_perform.
    destruct (run w (onCacheMiss env n)). reflexivity.
Qed.

End DispatcherRuns.

Section DispatcherValidation.

Import Dispatcher.

(** A parameter that reads as a number other than 0 passes the test
    [!pills]. *)
Lemma pillsNumber_truthy (v : jsval) (n : Z) :
  pillsNumber v = Some n -> n <> 0 -> truthy v = true.
Proof.
  destruct v as [| | [|] | m | | s |]; cbn; try discriminate.
  - intros [= ->] Hn. destruct (Z.eqb_spec n 0); [contradiction | reflexivity].
  - destruct s; [discriminate | reflexivity].
Qed.

Lemma handler_validated (env : processEnv) (v : jsval) (n : Z) :
  configured env -> pillsNumber v = Some n -> 1 <= n <= 47 ->
  handler env (askFor v) = checkCache env n.
Proof.
  intros [Hc Hd] Hv Hn. unfold handler. rewrite Hc, Hd. cbn.
  rewrite (pillsNumber_truthy v n Hv) by lia. cbn. rewrite Hv.
  destruct (Z.ltb_spec n 1); [lia |].
  destruct (Z.gtb_spec n 47); [lia |]. reflexivity.
Qed.

Lemma handler_out_of_domain (env : processEnv) (v : jsval) (n : Z) :
  configured env -> pillsNumber v = Some n -> n < 1 \/ 47 < n ->
  exists message : string,
    handler env (askFor v)
    = perform (callback None (Some (prepareResponse 400 (Message message)))).
Proof.
  intros [Hc Hd] Hv Hn. unfold handler. rewrite Hc, Hd. cbn.
  destruct (truthy v); cbn.
  - rewrite Hv.
    replace ((n <? 1) || (n >? 47)) with true.
    + eexists. reflexivity.
    + destruct (Z.ltb_spec n 1); [reflexivity |].
      destruct (Z.gtb_spec n 47); [reflexivity | lia].
  - eexists. reflexivity.
Qed.

Lemma handler_not_a_number (env : processEnv) (v : jsval) :
  configured env -> pillsNumber v = None ->
  exists message : string,
    handler env (askFor v)
    = perform (callback None (Some (prepareResponse 400 (Message message)))).
Proof.
  intros [Hc Hd] Hv. unfold handler. rewrite Hc, Hd. cbn.
  destruct (truthy v); cbn; [rewrite Hv |]; eexists; reflexivity.
Qed.

Lemma handler_no_query_string (env : processEnv) :
  configured env ->
  handler env {| queryStringParameters := None |}
  = perform (callback None (Some missingPills)).
Proof.
  intros [Hc Hd]. unfold handler. rewrite Hc, Hd. reflexivity.
Qed.

(** What [getFromCache] resolves to is the stored value when that is
    truthy, and [false] otherwise. *)
Lemma getFromCache_resolves (answer : http_result) (v : jsval) :
  getFromCache_settle answer = Resolved v ->
  v = JBool false \/ truthy v = true.
Proof.
  destruct answer as [err | statusCode [e | stored]]; cbn; try discriminate.
  - destruct (negb (statusCode =? 200)); discriminate.
  - destruct (negb (statusCode =? 200)); [discriminate |].
    destruct (truthy stored) eqn:Ht; intros [= <-]; [right | left]; auto.
Qed.

End DispatcherValidation.

(** ** The dispatcher *)

Section DispatcherProperties.

Import Dispatcher.

Variable env : processEnv.
Variable w : world.
Hypothesis Henv : configured env.

Lemma Handle_validated (v : jsval) (total : Z) :
  pillsNumber v = Some total -> 1 <= total <= 47 ->
  Handle env w v = trace w (checkCache env total).
Proof.
  intros Hv Ht. unfold Handle. rewrite (handler_validated env v total Henv Hv Ht).
  reflexivity.
Qed.

(** A request that finds nothing in the cache, or finds the cache failing,
    goes on as [onCacheMiss]. *)
Lemma Handle_miss (v : jsval) (total : Z) :
  pillsNumber v = Some total -> 1 <= total <= 47 ->
  getFromCache_settle (http w (cacheGet env total)) = Resolved (JBool false) ->
  Handle env w v
  = Requested (cacheGet env total) (http w (cacheGet env total))
    :: trace w (onCacheMiss env total).
Proof.
  intros Hv Ht Hmiss. rewrite (Handle_validated v total Hv Ht).
  rewrite trace_checkCache, Hmiss. reflexivity.
Qed.

Lemma Handle_cache_failure (v : jsval) (total : Z) (e : string) :
  pillsNumber v = Some total -> 1 <= total <= 47 ->
  getFromCache_settle (http w (cacheGet env total)) = Rejected e ->
  Handle env w v
  = Requested (cacheGet env total) (http w (cacheGet env total))
    :: Logged [JStr e] :: trace w (onCacheMiss env total).
Proof.
  intros Hv Ht Hfail. rewrite (Handle_validated v total Hv Ht).
  rewrite trace_checkCache, Hfail. reflexivity.
Qed.

Lemma Handle_noHit (v : jsval) (total : Z) :
  pillsNumber v = Some total -> 1 <= total <= 47 ->
  noHit (getFromCache_settle (http w (cacheGet env total))) ->
  callbacks (Handle env w v) = callbacks (trace w (onCacheMiss env total))
  /\ counted (Handle env w v) = counted (trace w (onCacheMiss env total))
  /\ requests (Handle env w v)
     = cacheGet env total :: requests (trace w (onCacheMiss env total)).
Proof.
  intros Hv Ht [Hmiss | [e Hfail]].
  - rewrite (Handle_miss v total Hv Ht Hmiss). repeat split.
  - rewrite (Handle_cache_failure v total e Hv Ht Hfail). repeat split.
Qed.

Lemma callbacks_onCacheMiss_compute (total : Z) :
  total <= 43 ->
  callbacks (trace w (onCacheMiss env total)) = [(None, Some (completed total))]
  /\ counted (trace w (onCacheMiss env total)) = [JNum total].
Proof.
  intros Ht. rewrite (trace_onCacheMiss_compute env w total Ht).
  destruct (saveToCache_settle _); split; reflexivity.
Qed.

(** An answer of status 202 never carries an empty identifier, whatever
    [UUID()] gave: the handler tests [taskId] before it answers. *)
Lemma deferred_id_not_empty (total : Z) (err : option string) (url id : string) :
  43 < total ->
  In (err, Some (prepareResponse 202 (Deferred url id)))
     (callbacks (trace w (onCacheMiss env total))) ->
  id <> "".
Proof.
  intros Ht. rewrite (trace_onCacheMiss_defer env w total Ht).
  cbn [app callbacks].
  destruct (deferTask_settle _ _) as [taskId | e].
  - destruct (truthy (JStr taskId)) eqn:Htruthy; cbn [callbacks In].
    + intros [[= _ _ <-] | []]. intros ->. discriminate.
    + intros [].
  - cbn [callbacks In]. intros [[=] | []].
Qed.

(** A cache answer of status 200 whose [permutations] is a number other
    than 0 is a hit. *)
Lemma cache_hit_number (v : jsval) (total c : Z) :
  pillsNumber v = Some total -> 1 <= total <= 47 ->
  http w (cacheGet env total) = HttpResponse 200 (Parsed (JNum c)) ->
  c <> 0 ->
  Handle env w v
  = [Requested (cacheGet env total) (HttpResponse 200 (Parsed (JNum c)));
     CalledBack None (Some (prepareResponse 200 (Complete (JNum c))))].
Proof.
  intros Hv Ht Hanswer Hc. rewrite (Handle_validated v total Hv Ht).
  rewrite trace_checkCache, Hanswer. cbn [getFromCache_settle truthy].
  replace (200 =? 200) with true by reflexivity.
  destruct (Z.eqb_spec c 0); [contradiction |]. cbn.
  destruct (Z.eqb_spec c 0); [contradiction | reflexivity].
Qed.

End DispatcherProperties.

(** C3.  On a cache miss, a total from 1 to 43 is answered at once with the
    computed count (the Counter runs, on that total), and for a total from
    44 to 47 the Counter does not run: the task is created and the answer
    is Deferred with the identifier of the task, which is not empty. *)
Theorem dispatcher_threshold
  (env : processEnv) (w : world) (v : jsval) (total : Z) :
  configured env ->
  Dispatcher.pillsNumber v = Some total ->
  noHit (Dispatcher.getFromCache_settle (http w (Dispatcher.cacheGet env total))) ->
  (1 <= total <= 43 ->
   callbacks (Handle env w v) = [(None, Some (completed total))] /\
   counted (Handle env w v) = [JNum total]) /\
  (44 <= total <= 47 ->
   Dispatcher.deferTask_settle (uuid w)
     (http w (Dispatcher.deferPost env (uuid w) total)) = Resolved (uuid w) ->
   uuid w <> "" ->
   callbacks (Handle env w v) = [(None, Some (deferredTo env (uuid w)))] /\
   counted (Handle env w v) = []).
Proof.
  intros Henv Hv Hmiss. split.
  - intros Ht.
    destruct (Handle_noHit env w Henv v total Hv ltac:(lia) Hmiss) as [-> [-> _]].
    apply callbacks_onCacheMiss_compute. lia.
  - intros Ht Hcreated Hid.
    destruct (Handle_noHit env w Henv v total Hv ltac:(lia) Hmiss) as [-> [-> _]].
    rewrite (trace_onCacheMiss_defer env w total ltac:(lia)), Hcreated.
    cbn [truthy].
    destruct (String.eqb_spec (uuid w) ""); [contradiction |].
    split; reflexivity.
Qed.

Lemma dispatcher_threshold_at_43_and_44 :
  (callbacks (Handle sampleEnv (sampleWorld emptyCache allFine) (JStr "43"))
     = [(None, Some (completed 43))]
   /\ counted (Handle sampleEnv (sampleWorld emptyCache allFine) (JStr "43")) = [JNum 43])
  /\
  (callbacks (Handle sampleEnv (sampleWorld emptyCache allFine) (JStr "44"))
     = [(None, Some (deferredTo sampleEnv (uuid (sampleWorld emptyCache allFine))))]
   /\ counted (Handle sampleEnv (sampleWorld emptyCache allFine) (JStr "44")) = []).
Proof.
  split.
  - apply (dispatcher_threshold sampleEnv (sampleWorld emptyCache allFine) (JStr "43") 43).
    + split; reflexivity.
    + reflexivity.
    + left; reflexivity.
    + lia.
  - apply (dispatcher_threshold sampleEnv (sampleWorld emptyCache allFine) (JStr "44") 44).
    + split; reflexivity.
    + reflexivity.
    + left; reflexivity.
    + lia.
    + reflexivity.
    + discriminate.
Defined.

(** C4.  A total outside [1, 47] is answered Invalid (status 400) and
    nothing else happens: no request to the cache or to the task store,
    no run of the Counter. *)
Theorem invalid_total_rejected
  (env : processEnv) (w : world) (v : jsval) (total : Z) :
  configured env ->
  Dispatcher.pillsNumber v = Some total ->
  total < 1 \/ 47 < total ->
  exists message : string,
    Handle env w v = [CalledBack None (Some (prepareResponse 400 (Message message)))]
    /\ requests (Handle env w v) = []
    /\ counted (Handle env w v) = [].
Proof.
  intros Henv Hv Ht.
  destruct (handler_out_of_domain env v total Henv Hv Ht) as [message Hm].
  exists message. unfold Handle. rewrite Hm. repeat split.
Qed.

Lemma invalid_total_rejected_at_0_and_48 :
  (exists message : string,
     Handle sampleEnv (sampleWorld emptyCache allFine) (JStr "0")
     = [CalledBack None (Some (prepareResponse 400 (Message message)))]
     /\ requests (Handle sampleEnv (sampleWorld emptyCache allFine) (JStr "0")) = []
     /\ counted (Handle sampleEnv (sampleWorld emptyCache allFine) (JStr "0")) = [])
  /\
  (exists message : string,
     Handle sampleEnv (sampleWorld emptyCache allFine) (JNum 48)
     = [CalledBack None (Some (prepareResponse 400 (Message message)))]
     /\ requests (Handle sampleEnv (sampleWorld emptyCache allFine) (JNum 48)) = []
     /\ counted (Handle sampleEnv (sampleWorld emptyCache allFine) (JNum 48)) = []).
Proof.
  split.
  - apply (invalid_total_rejected sampleEnv _ (JStr "0") 0).
    + split; reflexivity.
    + reflexivity.
    + lia.
  - apply (invalid_total_rejected sampleEnv _ (JNum 48) 48).
    + split; reflexivity.
    + reflexivity.
    + lia.
Defined.

(** C5.  For a total in [1, 47], when the cache Get gives back a stored
    count, the answer is Completed with exactly that value, and the Counter
    does not run (nor is anything written or deferred: the Get is the only
    request). *)
Theorem cache_hit_returned
  (env : processEnv) (w : world) (v : jsval) (total : Z) (stored : jsval) :
  configured env ->
  Dispatcher.pillsNumber v = Some total ->
  1 <= total <= 47 ->
  Dispatcher.getFromCache_settle (http w (Dispatcher.cacheGet env total))
    = Resolved stored ->
  stored <> JBool false ->
  callbacks (Handle env w v) = [(None, Some (prepareResponse 200 (Complete stored)))]
  /\ counted (Handle env w v) = []
  /\ requests (Handle env w v) = [Dispatcher.cacheGet env total].
Proof.
  intros Henv Hv Ht Hhit Hstored.
  rewrite (Handle_validated env w Henv v total Hv Ht).
  rewrite trace_checkCache, Hhit.
  destruct (getFromCache_resolves _ _ Hhit) as [Hfalse | Htruthy];
    [contradiction |].
  rewrite Htruthy. repeat split.
Qed.

Lemma cache_hit_returned_at_44 :
  callbacks (Handle sampleEnv
               (sampleWorld (HttpResponse 200 (Parsed (JNum 1134903170))) allFine)
               (JStr "44"))
  = [(None, Some (prepareResponse 200 (Complete (JNum 1134903170))))]
  /\ counted (Handle sampleEnv
                (sampleWorld (HttpResponse 200 (Parsed (JNum 1134903170))) allFine)
                (JStr "44")) = []
  /\ requests (Handle sampleEnv
                 (sampleWorld (HttpResponse 200 (Parsed (JNum 1134903170))) allFine)
                 (JStr "44")) = [Dispatcher.cacheGet sampleEnv 44].
Proof.
  apply (cache_hit_returned sampleEnv _ (JStr "44") 44 (JNum 1134903170)).
  - split; reflexivity.
  - reflexivity.
  - lia.
  - reflexivity.
  - discriminate.
Defined.

(** C6.  For a total in [1, 43] a failure of the cache does not reach the
    caller.  When the Get fails, the failure is logged and the run goes on
    as on a miss: the one answer is Completed with the computed count.
    When the Put fails, the failure is logged after the answer has been
    given, and the answer is the only call of the callback. *)
Theorem cache_failure_hidden
  (env : processEnv) (w : world) (v : jsval) (total : Z) :
  configured env ->
  Dispatcher.pillsNumber v = Some total ->
  1 <= total <= 43 ->
  (forall e : string,
     Dispatcher.getFromCache_settle (http w (Dispatcher.cacheGet env total))
       = Rejected e ->
     Handle env w v
     = Requested (Dispatcher.cacheGet env total)
         (http w (Dispatcher.cacheGet env total))
       :: Logged [JStr e] :: trace w (Dispatcher.onCacheMiss env total)
     /\ callbacks (Handle env w v) = [(None, Some (completed total))])
  /\
  (forall e : string,
     noHit (Dispatcher.getFromCache_settle (http w (Dispatcher.cacheGet env total))) ->
     Dispatcher.saveToCache_settle
       (http w (Dispatcher.cachePost env total (Dispatcher.getNumberOfPermutations total)))
       = Rejected e ->
     callbacks (Handle env w v) = [(None, Some (completed total))]
     /\ exists before : list event,
          callbacks before = [] /\
          Handle env w v
          = (before ++
             [CalledBack None (Some (completed total));
              Requested
                (Dispatcher.cachePost env total (Dispatcher.getNumberOfPermutations total))
                (http w (Dispatcher.cachePost env total
                           (Dispatcher.getNumberOfPermutations total)));
              Logged [JStr e]])%list).
Proof.
  intros Henv Hv Ht. split.
  - intros e Hfail.
    rewrite (Handle_cache_failure env w Henv v total e Hv ltac:(lia) Hfail).
    split; [reflexivity |]. cbn [callbacks].
    apply callbacks_onCacheMiss_compute. lia.
  - intros e Hget Hput.
    rewrite (Handle_validated env w Henv v total Hv ltac:(lia)).
    rewrite trace_checkCache.
    rewrite (trace_onCacheMiss_compute env w total ltac:(lia)), Hput.
    destruct Hget as [-> | [e' ->]]; cbn [truthy].
    + split; [reflexivity |].
      refine (ex_intro _ [Requested _ _; Logged _; Counted _ _; Logged _] _).
      split; reflexivity.
    + split; [reflexivity |].
      refine (ex_intro _ [Requested _ _; Logged _; Logged _; Counted _ _; Logged _] _).
      split; reflexivity.
Qed.

Lemma cache_failure_hidden_at_5 :
  (Handle sampleEnv (sampleWorld (HttpError "ECONNREFUSED") allDown) (JStr "5")
   = Requested (Dispatcher.cacheGet sampleEnv 5) (HttpError "ECONNREFUSED")
     :: Logged [JStr "Error: Internal Error Making GET Request to Cache Service - ECONNREFUSED"]
     :: trace (sampleWorld (HttpError "ECONNREFUSED") allDown)
          (Dispatcher.onCacheMiss sampleEnv 5)
   /\ callbacks (Handle sampleEnv (sampleWorld (HttpError "ECONNREFUSED") allDown) (JStr "5"))
      = [(None, Some (completed 5))])
  /\
  (callbacks (Handle sampleEnv (sampleWorld (HttpError "ECONNREFUSED") allDown) (JStr "5"))
   = [(None, Some (completed 5))]
   /\ exists before : list event,
        callbacks before = [] /\
        Handle sampleEnv (sampleWorld (HttpError "ECONNREFUSED") allDown) (JStr "5")
        = (before ++
           [CalledBack None (Some (completed 5));
            Requested
              (Dispatcher.cachePost sampleEnv 5 (Dispatcher.getNumberOfPermutations 5))
              (HttpResponse 503 (Parsed JUndefined));
            Logged [JStr "Error: POST Request to Cache Service failed - [object Object]"]])%list).
Proof.
  pose proof (cache_failure_hidden sampleEnv
                (sampleWorld (HttpError "ECONNREFUSED") allDown) (JStr "5") 5
                (conj eq_refl eq_refl) eq_refl ltac:(lia)) as [Hget Hput].
  split.
  - apply Hget. reflexivity.
  - apply Hput.
    + right. eexists. reflexivity.
    + reflexivity.
Defined.

(** C7.  For a total in [44, 47] that the cache does not answer, when the
    creation of the task fails the callback is called with the error and
    the response of status 500; nothing is computed in its place. *)
Theorem deferral_failure_surfaced
  (env : processEnv) (w : world) (v : jsval) (total : Z) (e : string) :
  configured env ->
  Dispatcher.pillsNumber v = Some total ->
  44 <= total <= 47 ->
  noHit (Dispatcher.getFromCache_settle (http w (Dispatcher.cacheGet env total))) ->
  Dispatcher.deferTask_settle (uuid w)
    (http w (Dispatcher.deferPost env (uuid w) total)) = Rejected e ->
  callbacks (Handle env w v) = [(Some e, Some internalError)]
  /\ statusCode internalError = 500
  /\ counted (Handle env w v) = [].
Proof.
  intros Henv Hv Ht Hmiss Hfail.
  destruct (Handle_noHit env w Henv v total Hv ltac:(lia) Hmiss) as [-> [-> _]].
  rewrite (trace_onCacheMiss_defer env w total ltac:(lia)), Hfail.
  repeat split.
Qed.

Lemma deferral_failure_surfaced_at_44 :
  callbacks (Handle sampleEnv (sampleWorld emptyCache allDown) (JStr "44"))
  = [(Some "Error: POST Request to Defer Service Failed - [object Object]",
      Some internalError)]
  /\ statusCode internalError = 500
  /\ counted (Handle sampleEnv (sampleWorld emptyCache allDown) (JStr "44")) = [].
Proof.
  apply (deferral_failure_surfaced sampleEnv (sampleWorld emptyCache allDown)
           (JStr "44") 44).
  - split; reflexivity.
  - reflexivity.
  - lia.
  - left. reflexivity.
  - reflexivity.
Defined.

(** ** Stored counts and the truthiness test *)

Lemma toString_not_empty (n : Z) : toString n <> "".
Proof.
  unfold toString, NilZero.string_of_int, NilZero.string_of_uint.
  destruct (Z.to_int n) as [d | d]; destruct d; cbn; discriminate.
Qed.

(** A count the Counter computed is truthy, as a number and as the string
    the cache was sent. *)
Lemma computed_count_truthy (n : Z) :
  0 <= n ->
  truthy (JNum (Dispatcher.getNumberOfPermutations n)) = true
  /\ truthy (JStr (toString (Dispatcher.getNumberOfPermutations n))) = true.
Proof.
  intros Hn. pose proof (getNumberOfPermutations_positive n Hn) as Hpos.
  split; cbn [truthy].
  - destruct (Z.eqb_spec (Dispatcher.getNumberOfPermutations n) 0); [lia | reflexivity].
  - destruct (String.eqb_spec (toString (Dispatcher.getNumberOfPermutations n)) "")
      as [Hempty | _]; [| reflexivity].
    exfalso. exact (toString_not_empty _ Hempty).
Qed.

(** C10.  For every non-negative [n] the Counter returns at least 1.  The
    test on what the cache gave takes 0 and a missing [permutations] field
    for a miss; for a valid total, a cache answer that carries the count of
    that total (as a number, or as the decimal string that was stored) is
    taken as a hit: [getFromCache] resolves to it and the answer is
    Completed with it, the Counter not running. *)
Theorem stored_count_never_a_miss
  (env : processEnv) (w : world) (v : jsval) (total : Z) (stored : jsval) :
  (forall n : Z, 0 <= n -> 1 <= Dispatcher.getNumberOfPermutations n) /\
  Dispatcher.getFromCache_settle (HttpResponse 200 (Parsed (JNum 0)))
    = Resolved (JBool false) /\
  Dispatcher.getFromCache_settle (HttpResponse 200 (Parsed JUndefined))
    = Resolved (JBool false) /\
  (configured env ->
   Dispatcher.pillsNumber v = Some total ->
   1 <= total <= 47 ->
   stored = JNum (Dispatcher.getNumberOfPermutations total)
   \/ stored = JStr (toString (Dispatcher.getNumberOfPermutations total)) ->
   http w (Dispatcher.cacheGet env total) = HttpResponse 200 (Parsed stored) ->
   Dispatcher.getFromCache_settle (http w (Dispatcher.cacheGet env total))
     = Resolved stored
   /\ callbacks (Handle env w v) = [(None, Some (prepareResponse 200 (Complete stored)))]
   /\ counted (Handle env w v) = []).
Proof.
  split; [exact getNumberOfPermutations_positive |].
  split; [reflexivity |]. split; [reflexivity |].
  intros Henv Hv Ht Hstored Hanswer.
  assert (Htruthy : truthy stored = true).
  { destruct (computed_count_truthy total ltac:(lia)) as [Hnum Hstr].
    destruct Hstored as [-> | ->]; assumption. }
  assert (Hhit : Dispatcher.getFromCache_settle (http w (Dispatcher.cacheGet env total))
                 = Resolved stored).
  { rewrite Hanswer. cbn. rewrite Htruthy. reflexivity. }
  split; [exact Hhit |].
  rewrite (Handle_validated env w Henv v total Hv Ht).
  rewrite trace_checkCache, Hhit, Htruthy. split; reflexivity.
Qed.

Lemma stored_count_never_a_miss_at_5 :
  1 <= Dispatcher.getNumberOfPermutations 5 /\
  Dispatcher.getFromCache_settle
    (http (sampleWorld (HttpResponse 200 (Parsed (JNum 8))) allFine)
       (Dispatcher.cacheGet sampleEnv 5))
  = Resolved (JNum 8)
  /\ callbacks (Handle sampleEnv (sampleWorld (HttpResponse 200 (Parsed (JNum 8))) allFine)
                  (JStr "5"))
     = [(None, Some (prepareResponse 200 (Complete (JNum 8))))]
  /\ counted (Handle sampleEnv (sampleWorld (HttpResponse 200 (Parsed (JNum 8))) allFine)
                (JStr "5")) = [].
Proof.
  pose proof (stored_count_never_a_miss sampleEnv
                (sampleWorld (HttpResponse 200 (Parsed (JNum 8))) allFine)
                (JStr "5") 5 (JNum 8)) as [Hpos [_ [_ Hhit]]].
  split.
  - apply Hpos. lia.
  - apply Hhit.
    + split; reflexivity.
    + reflexivity.
    + lia.
    + left. reflexivity.
    + reflexivity.
Defined.

(** ** The script and its global accumulator *)

Lemma script_body (totalPills sum global : Z) :
  Script.getNumberOfPermutations totalPills sum global =
    if sum >? totalPills then global
    else if sum =? totalPills then Double.increment global
    else Script.getNumberOfPermutations totalPills (sum + maxPillsPerDay)
           (Script.getNumberOfPermutations totalPills (sum + minPillsPerDay) global).
Proof.
  rewrite (Script.getNumberOfPermutations_equation_1 totalPills sum global).
  destruct (Z_gt_dec sum totalPills) as [Hgt | Hgt]; simpl.
  - destruct (Z.gtb_spec sum totalPills); [reflexivity | lia].
  - destruct (Z.gtb_spec sum totalPills); [lia |].
    destruct (Z.eq_dec sum totalPills) as [He | He]; simpl.
    + rewrite (proj2 (Z.eqb_eq _ _) He). reflexivity.
    + rewrite (proj2 (Z.eqb_neq _ _) He). reflexivity.
Qed.

(** The function of the script does to the global what the
    [findPermutations] of the dispatcher does to its local accumulator. *)
Lemma script_as_findPermutations (totalPills sum global : Z) :
  Script.getNumberOfPermutations totalPills sum global
  = Double.findPermutations totalPills sum global.
Proof.
  revert global.
  induction sum as [sum IH] using (well_founded_induction (calls_well_founded totalPills)).
  intros global. rewrite script_body, double_body.
  destruct (Z.gtb_spec sum totalPills); [reflexivity |].
  destruct (Z.eqb_spec sum totalPills); [reflexivity |].
  rewrite (IH (sum + minPillsPerDay))
    by (constructor; unfold minPillsPerDay, maxPillsPerDay; lia).
  apply IH. constructor; unfold minPillsPerDay, maxPillsPerDay; lia.
Qed.

(** As long as the global stays within 2^53 a call adds the count to it. *)
Lemma script_adds_count (totalPills global : Z) :
  global + Dispatcher.getNumberOfPermutations totalPills <= Double.limit ->
  Script.getNumberOfPermutations totalPills 0 global
  = global + Dispatcher.getNumberOfPermutations totalPills.
Proof.
  intros Hfits.
  pose proof (getNumberOfPermutations_nonneg totalPills).
  rewrite script_as_findPermutations, double_findPermutations_min by lia.
  replace (totalPills - 0) with totalPills by lia. lia.
Qed.

Lemma script_main : Script.main = 701408733.
Proof.
  unfold Script.main, Script.totalPills.
  rewrite script_adds_count; rewrite getNumberOfPermutations_43;
    [reflexivity | discriminate].
Qed.





(** ** The workers *)

Lemma greater_irrefl (t : total) : greater t t = false.
Proof.
  destruct t as [n | text value]; cbn.
  - destruct (Z.gtb_spec n n); [lia | reflexivity].
  - unfold String.ltb.
    replace (String.compare text text) with Eq; [reflexivity |].
    symmetry. induction text as [| c text IH]; cbn; [reflexivity |].
    rewrite IH. unfold Ascii.compare. rewrite N.compare_refl. reflexivity.
Qed.

Lemma strictEqual_refl (t : total) : strictEqual t t = true.
Proof. destruct t; cbn; [apply Z.eqb_refl | apply String.eqb_refl]. Qed.

Lemma workerV1_body (numberOfPills sum : total) (acc : Z) :
  DeferredWorkerV1.findPermutations numberOfPills sum acc =
    if greater sum numberOfPills then acc
    else if strictEqual sum numberOfPills then acc + 1
    else DeferredWorkerV1.findPermutations numberOfPills numberOfPills
           (DeferredWorkerV1.findPermutations numberOfPills numberOfPills acc).
Proof.
  rewrite (DeferredWorkerV1.findPermutations_equation_1 numberOfPills sum acc).
  destruct (sumbool_of_bool (greater sum numberOfPills)) as [Hg | Hg]; cbn;
    (etransitivity; [| symmetry; rewrite Hg; reflexivity]); [reflexivity |].
  destruct (sumbool_of_bool (strictEqual sum numberOfPills)) as [He | He]; cbn;
    (etransitivity; [| symmetry; rewrite He; reflexivity]); reflexivity.
Qed.

(** What the Counter of the first worker returns: 2 as soon as the call on
    0 gets to its loop. *)
Lemma workerV1_counts (numberOfPills : total) :
  DeferredWorkerV1.getNumberOfPermutations numberOfPills =
    if greater (Number 0) numberOfPills then 0
    else if strictEqual (Number 0) numberOfPills then 1
    else 2.
Proof.
  unfold DeferredWorkerV1.getNumberOfPermutations.
  rewrite workerV1_body.
  destruct (greater (Number 0) numberOfPills); [reflexivity |].
  destruct (strictEqual (Number 0) numberOfPills); [reflexivity |].
  assert (Hexact : forall acc : Z,
            DeferredWorkerV1.findPermutations numberOfPills numberOfPills acc = acc + 1).
  { intros acc. rewrite workerV1_body, greater_irrefl, strictEqual_refl. reflexivity. }
  rewrite !Hexact. reflexivity.
Qed.

Lemma workerV1_counts_2 (numberOfPills : total) :
  1 <= valueOf numberOfPills ->
  DeferredWorkerV1.getNumberOfPermutations numberOfPills = 2.
Proof.
  intros Hn. rewrite workerV1_counts.
  destruct numberOfPills as [n | text value]; cbn [valueOf greater strictEqual] in *.
  - destruct (Z.gtb_spec 0 n); [lia |].
    destruct (Z.eqb_spec 0 n); [lia | reflexivity].
  - destruct (Z.gtb_spec 0 value); [lia | reflexivity].
Qed.

Lemma worker_body (numberOfPills : total) (sum acc : Z) :
  DeferredWorker.findPermutations numberOfPills sum acc =
    if sum >? valueOf numberOfPills then acc
    else if strictEqual (Number sum) numberOfPills then acc + 1
    else DeferredWorker.findPermutations numberOfPills (sum + maxPillsPerDay)
           (DeferredWorker.findPermutations numberOfPills (sum + minPillsPerDay) acc).
Proof.
  rewrite (DeferredWorker.findPermutations_equation_1 numberOfPills sum acc).
  destruct (Z_gt_dec sum (valueOf numberOfPills)) as [Hgt | Hgt].
  - destruct (Z.gtb_spec sum (valueOf numberOfPills)); [reflexivity | lia].
  - destruct (Z.gtb_spec sum (valueOf numberOfPills)); [lia |].
    unfold DeferredWorker.findPermutations_unfold_clause_1.
    destruct (strictEqual (Number sum) numberOfPills); reflexivity.
Qed.

(** On a number the Counter of the second worker is the dispatcher's. *)
Lemma worker_on_number (n sum acc : Z) :
  DeferredWorker.findPermutations (Number n) sum acc
  = Dispatcher.findPermutations n sum acc.
Proof.
  revert acc.
  induction sum as [sum IH] using (well_founded_induction (calls_well_founded n)).
  intros acc. rewrite worker_body, findPermutations_body. cbn [valueOf strictEqual].
  destruct (Z.gtb_spec sum n); [reflexivity |].
  destruct (Z.eqb_spec sum n); [reflexivity |].
  rewrite (IH (sum + minPillsPerDay))
    by (constructor; unfold minPillsPerDay, maxPillsPerDay; lia).
  apply IH. constructor; unfold minPillsPerDay, maxPillsPerDay; lia.
Qed.

(** On a text no running sum is strictly equal to the total: the
    accumulator is never incremented. *)
Lemma worker_on_text (text : string) (value sum acc : Z) :
  DeferredWorker.findPermutations (Numeral text value) sum acc = acc.
Proof.
  remember (Z.to_nat (value - sum + 1)) as m eqn:Hm.
  revert sum acc Hm.
  induction m as [m IH] using lt_wf_ind; intros sum acc Hm.
  rewrite worker_body. cbn [valueOf strictEqual].
  destruct (Z.gtb_spec sum value); [reflexivity |].
  unfold minPillsPerDay, maxPillsPerDay.
  rewrite (IH (Z.to_nat (value - (sum + 2) + 1))) with (sum := sum + 2) by lia.
  rewrite (IH (Z.to_nat (value - (sum + 1) + 1))) with (sum := sum + 1) by lia.
  reflexivity.
Qed.

Lemma worker_counts (numberOfPills : total) :
  DeferredWorker.getNumberOfPermutations numberOfPills =
    match numberOfPills with
    | Number n => Dispatcher.getNumberOfPermutations n
    | Numeral _ _ => 0
    end.
Proof.
  unfold DeferredWorker.getNumberOfPermutations.
  destruct numberOfPills as [n | text value].
  - apply worker_on_number.
  - apply worker_on_text.
Qed.

Section WorkerRuns.

Import DeferredWorker.

Variable env : processEnv.
Variable w : world.

(** The requests of the second worker for one INSERT record, whatever the
    answers to them are: the task of the notification is set IN_PROGRESS,
    then COMPLETE with what its Counter returned, and the total goes to
    the cache with that value. *)
Lemma processRecord_insert (id : string) (numberOfPills : total) :
  let record :=
    {| eventName := "INSERT"; Keys_id := id; NewImage_pills := numberOfPills |} in
  let numberOfPermutations := getNumberOfPermutations numberOfPills in
  requests (trace w (processRecord env record))
  = [taskPut env id "IN_PROGRESS" None;
     taskPut env id "COMPLETE" (Some numberOfPermutations);
     cachePost env numberOfPills numberOfPermutations]
  /\ counted (trace w (processRecord env record)) = [jsOf numberOfPills].
Proof.
  intros record numberOfPermutations. subst record numberOfPermutations.
  unfold trace, processRecord.
  cbn [eventName Keys_id NewImage_pills]. cbn [String.eqb Ascii.eqb Bool.eqb].
  unfold logRejection, updateTask, saveToCache.
  cbn [bind perform run answer observe].
  repeat match goal with
         | |- context [match ?x with Resolved _ => _ | Rejected _ => _ end] =>
             destruct x; cbn [bind perform run answer observe]
         end.
  all: split; reflexivity.
Qed.

Lemma processRecord_other (record : streamRecord) :
  String.eqb (eventName record) "INSERT" = false ->
  run w (processRecord env record) = ([], tt).
Proof. intros H. unfold processRecord. rewrite H. reflexivity. Qed.

(** For a total that is a number, the second worker does what the
    specification asks of the Deferred Worker. *)
Lemma worker_completes_number (id : string) (n : Z) :
  0 <= n ->
  let record := {| eventName := "INSERT"; Keys_id := id; NewImage_pills := Number n |} in
  let count := Dispatcher.getNumberOfPermutations n in
  requests (trace w (processRecord env record))
  = [taskPut env id "IN_PROGRESS" None;
     taskPut env id "COMPLETE" (Some count);
     cachePost env (Number n) count]
  /\ Http.body (taskPut env id "COMPLETE" (Some count))
     = [("status", "COMPLETE"); ("permutations", toString count)]
  /\ Http.body (cachePost env (Number n) count)
     = [("pills", toString n); ("permutations", toString count)].
Proof.
  intros Hn record count. subst record count.
  destruct (processRecord_insert id (Number n)) as [Hreq _].
  rewrite worker_counts in Hreq. split; [exact Hreq |].
  split; [| reflexivity].
  cbn [taskPut Http.body].
  rewrite (proj1 (computed_count_truthy n Hn)). reflexivity.
Qed.

(** An event of one INSERT record, in a configured environment: the three
    requests of the record, then the callback without an error. *)
Lemma handler_one_insert (id : string) (numberOfPills : total) :
  configured env ->
  let record :=
    {| eventName := "INSERT"; Keys_id := id; NewImage_pills := numberOfPills |} in
  let numberOfPermutations := getNumberOfPermutations numberOfPills in
  requests (trace w (handler env {| Records := [record] |}))
  = [taskPut env id "IN_PROGRESS" None;
     taskPut env id "COMPLETE" (Some numberOfPermutations);
     cachePost env numberOfPills numberOfPermutations]
  /\ callbacks (trace w (handler env {| Records := [record] |})) = [(None, None)].
Proof.
  intros [Hc Hd] record numberOfPermutations. subst record numberOfPermutations.
  unfold trace, handler. rewrite Hc, Hd. cbn [negb Records forEach].
  unfold processRecord.
  cbn [eventName Keys_id NewImage_pills]. cbn [String.eqb Ascii.eqb Bool.eqb].
  unfold logRejection, updateTask, saveToCache.
  cbn [bind perform run answer observe].
  repeat match goal with
         | |- context [match ?x with Resolved _ => _ | Rejected _ => _ end] =>
             destruct x; cbn [bind perform run answer observe]
         end.
  all: split; reflexivity.
Qed.

End WorkerRuns.

(** C2, on the code.  For the notification of a task of 44 pills the
    specification asks for the task to be completed with 1134903170.  The Counter of the first
    worker returns 2, for the total as a number and as a text.  The Counter
    of the second worker returns 0 when the total is a text, and the
    worker then sends 0 as the result of the task and as the cached count. *)
Theorem worker_wrong_count (env : processEnv) (w : world) :
  Dispatcher.getNumberOfPermutations 44 = 1134903170
  /\ DeferredWorkerV1.getNumberOfPermutations (Number 44) = 2
  /\ DeferredWorkerV1.getNumberOfPermutations (Numeral "44" 44) = 2
  /\ DeferredWorker.getNumberOfPermutations (Numeral "44" 44) = 0
  /\ requests
       (trace w
          (DeferredWorker.processRecord env
             {| DeferredWorker.eventName := "INSERT";
                DeferredWorker.Keys_id := "t1";
                DeferredWorker.NewImage_pills := Numeral "44" 44 |}))
     = [DeferredWorker.taskPut env "t1" "IN_PROGRESS" None;
        DeferredWorker.taskPut env "t1" "COMPLETE" (Some 0);
        DeferredWorker.cachePost env (Numeral "44" 44) 0]
  /\ Http.body (DeferredWorker.taskPut env "t1" "COMPLETE" (Some 0))
     = [("status", "COMPLETE"); ("permutations", "0")]
  /\ Http.body (DeferredWorker.cachePost env (Numeral "44" 44) 0)
     = [("pills", "44"); ("permutations", "0")].
Proof.
  split; [apply getNumberOfPermutations_44 |].
  split; [apply workerV1_counts_2; cbn; lia |].
  split; [apply workerV1_counts_2; cbn; lia |].
  split; [apply worker_counts |].
  split; [| split; reflexivity].
  destruct (processRecord_insert env w "t1" (Numeral "44" 44)) as [Hreq _].
  rewrite worker_counts in Hreq. exact Hreq.
Qed.

(** * Further properties of the code *)

(** ** The recursion of the Counter *)

Lemma activations_body (numberOfPills sum : Z) :
  activations numberOfPills sum =
    if sum >? numberOfPills then 1
    else if sum =? numberOfPills then 1
    else 1 + activations numberOfPills (sum + minPillsPerDay)
           + activations numberOfPills (sum + maxPillsPerDay).
Proof.
  rewrite (activations_equation_1 numberOfPills sum).
  destruct (Z_gt_dec sum numberOfPills) as [Hgt | Hgt]; simpl.
  - destruct (Z.gtb_spec sum numberOfPills); [reflexivity | lia].
  - destruct (Z.gtb_spec sum numberOfPills); [lia |].
    destruct (Z.eq_dec sum numberOfPills) as [He | He]; simpl.
    + rewrite (proj2 (Z.eqb_eq _ _) He). reflexivity.
    + rewrite (proj2 (Z.eqb_neq _ _) He). reflexivity.
Qed.

Lemma depth_body (numberOfPills sum : Z) :
  depth numberOfPills sum =
    if sum >? numberOfPills then 1
    else if sum =? numberOfPills then 1
    else 1 + Z.max (depth numberOfPills (sum + minPillsPerDay))
               (depth numberOfPills (sum + maxPillsPerDay)).
Proof.
  rewrite (depth_equation_1 numberOfPills sum).
  destruct (Z_gt_dec sum numberOfPills) as [Hgt | Hgt]; simpl.
  - destruct (Z.gtb_spec sum numberOfPills); [reflexivity | lia].
  - destruct (Z.gtb_spec sum numberOfPills); [lia |].
    destruct (Z.eq_dec sum numberOfPills) as [He | He]; simpl.
    + rewrite (proj2 (Z.eqb_eq _ _) He). reflexivity.
    + rewrite (proj2 (Z.eqb_neq _ _) He). reflexivity.
Qed.

Lemma activations_from (numberOfPills sum : Z) :
  sum <= numberOfPills + 1 ->
  activations numberOfPills sum
  = 2 * Dispatcher.getNumberOfPermutations (numberOfPills - sum + 1) - 1.
Proof.
  remember (Z.to_nat (numberOfPills - sum + 1)) as m eqn:Hm.
  revert sum Hm.
  induction m as [m IH] using lt_wf_ind; intros sum Hm Hle.
  rewrite activations_body.
  destruct (Z.gtb_spec sum numberOfPills).
  - replace (numberOfPills - sum + 1) with 0 by lia. reflexivity.
  - destruct (Z.eqb_spec sum numberOfPills).
    + replace (numberOfPills - sum + 1) with 1 by lia. reflexivity.
    + unfold minPillsPerDay, maxPillsPerDay.
      rewrite (IH (Z.to_nat (numberOfPills - (sum + 1) + 1))) with (sum := sum + 1)
        by lia.
      rewrite (IH (Z.to_nat (numberOfPills - (sum + 2) + 1))) with (sum := sum + 2)
        by lia.
      rewrite (getNumberOfPermutations_step (numberOfPills - sum + 1)) by lia.
      replace (numberOfPills - sum + 1 - 1) with (numberOfPills - (sum + 1) + 1) by lia.
      replace (numberOfPills - sum + 1 - 2) with (numberOfPills - (sum + 2) + 1) by lia.
      lia.
Qed.

Lemma depth_from (numberOfPills sum : Z) :
  sum <= numberOfPills ->
  depth numberOfPills sum = numberOfPills - sum + 1.
Proof.
  remember (Z.to_nat (numberOfPills - sum + 1)) as m eqn:Hm.
  revert sum Hm.
  induction m as [m IH] using lt_wf_ind; intros sum Hm Hle.
  rewrite depth_body.
  destruct (Z.gtb_spec sum numberOfPills); [lia |].
  destruct (Z.eqb_spec sum numberOfPills); [lia |].
  unfold minPillsPerDay, maxPillsPerDay.
  rewrite (IH (Z.to_nat (numberOfPills - (sum + 1) + 1))) with (sum := sum + 1) by lia.
  destruct (Z.eq_dec (sum + 1) numberOfPills) as [Hlast | Hmore].
  - rewrite (depth_body numberOfPills (sum + 2)).
    destruct (Z.gtb_spec (sum + 2) numberOfPills); lia.
  - rewrite (IH (Z.to_nat (numberOfPills - (sum + 2) + 1))) with (sum := sum + 2) by lia.
    lia.
Qed.

(** X1.  A call of the Counter on a total [n >= 0] brings about
    [2 * Count(n + 1) - 1] activations of [findPermutations], nested at
    most [n + 1] deep; for the 43 pills of the threshold that is
    2269806339 activations. *)
Theorem counter_cost (n : Z) :
  0 <= n ->
  activations n 0 = 2 * Dispatcher.getNumberOfPermutations (n + 1) - 1
  /\ depth n 0 = n + 1
  /\ activations 43 0 = 2269806339.
Proof.
  intros Hn. split; [| split].
  - rewrite activations_from by lia. f_equal. f_equal. f_equal. lia.
  - rewrite depth_from by lia. lia.
  - rewrite activations_from by lia.
    replace (43 - 0 + 1) with 44 by lia.
    rewrite getNumberOfPermutations_44. reflexivity.
Qed.

Lemma counter_cost_at_5 :
  0 <= 5 /\
  activations 5 0 = 2 * Dispatcher.getNumberOfPermutations (5 + 1) - 1
  /\ depth 5 0 = 5 + 1.
Proof.
  split; [lia |].
  pose proof (counter_cost 5 ltac:(lia)) as [Hcalls [Hdepth _]].
  split; assumption.
Defined.

(** X2.  The call [findPermutations(sum)], entered with the accumulator at
    [acc] between 0 and 2^53, leaves it at [acc] plus the count for
    [total - sum] pills, or at 2^53 if that is more: the accumulator never
    decreases, and past the total nothing is added.  Where the sum fits in
    2^53 what is added does not depend on what the accumulator held, and
    the recursion on integers gives the same. *)
Theorem accumulator_only_grows (total sum acc : Z) :
  0 <= sum -> total < 2 ^ 53 -> 0 <= acc <= 2 ^ 53 ->
  Double.findPermutations total sum acc = Z.min (2 ^ 53) (acc + Count (total - sum))
  /\ acc <= Double.findPermutations total sum acc <= 2 ^ 53
  /\ (total < sum -> Double.findPermutations total sum acc = acc)
  /\ (acc + Count (total - sum) <= 2 ^ 53 ->
      Double.findPermutations total sum acc = acc + Count (total - sum)
      /\ Dispatcher.findPermutations total sum acc
         = Double.findPermutations total sum acc).
Proof.
  intros _ _ Hacc. rewrite <- limit_pow in *.
  rewrite <- getNumberOfPermutations_Count.
  pose proof (getNumberOfPermutations_nonneg (total - sum)) as Hpos.
  assert (Hmin : Double.findPermutations total sum acc
                 = Z.min Double.limit
                     (acc + Dispatcher.getNumberOfPermutations (total - sum)))
    by (apply double_findPermutations_min; lia).
  split; [exact Hmin |]. split; [lia |]. split.
  - intros Hover. rewrite Hmin, getNumberOfPermutations_negative by lia. lia.
  - intros Hfits.
    rewrite findPermutations_frame, findPermutations_from. lia.
Qed.

Lemma accumulator_only_grows_at_5 :
  0 <= 0 /\ 5 < 2 ^ 53 /\ 0 <= 3 <= 2 ^ 53 /\
  3 <= Double.findPermutations 5 0 3 <= 2 ^ 53.
Proof.
  split; [lia |]. split; [reflexivity |]. split; [split; discriminate |].
  apply (proj1 (proj2 (accumulator_only_grows 5 0 3 ltac:(lia) ltac:(reflexivity)
                         ltac:(split; discriminate)))).
Defined.

Lemma getNumberOfPermutations_le_pow2 (k : nat) :
  Dispatcher.getNumberOfPermutations (Z.of_nat k) <= 2 ^ Z.of_nat k
  /\ Dispatcher.getNumberOfPermutations (Z.of_nat k + 1) <= 2 ^ (Z.of_nat k + 1).
Proof.
  induction k as [| k [IH0 IH1]].
  - change (Z.of_nat 0) with 0. change (0 + 1) with 1.
    assert (H1 : Dispatcher.getNumberOfPermutations 1 = 1) by reflexivity.
    rewrite getNumberOfPermutations_0, H1. split; [reflexivity | discriminate].
  - replace (Z.of_nat (S k)) with (Z.of_nat k + 1) by lia.
    split; [exact IH1 |].
    rewrite (getNumberOfPermutations_step (Z.of_nat k + 1 + 1)) by lia.
    replace (Z.of_nat k + 1 + 1 - 1) with (Z.of_nat k + 1) by lia.
    replace (Z.of_nat k + 1 + 1 - 2) with (Z.of_nat k) by lia.
    replace (Z.of_nat k + 1 + 1) with (Z.succ (Z.succ (Z.of_nat k))) by lia.
    replace (Z.of_nat k + 1) with (Z.succ (Z.of_nat k)) in IH1 by lia.
    rewrite !Z.pow_succ_r in * by lia.
    replace (Z.succ (Z.of_nat k)) with (Z.of_nat k + 1) in * by lia.
    pose proof (Z.pow_nonneg 2 (Z.of_nat k) ltac:(lia)).
    lia.
Qed.

(** X3.  The count grows with the total and exponentially: for [n] from 0
    to 75 the result of the Counter is at least 1, at most [2^n], it does
    not decrease with [n], and two more pills at least double it.  (The
    results on 77 pills and on fewer stay below 2^53; 78 pills give 2^53,
    less than twice the result on 76.) *)
Theorem count_growth (n : Z) :
  0 <= n <= 75 ->
  1 <= Double.getNumberOfPermutations n <= 2 ^ n
  /\ Double.getNumberOfPermutations n <= Double.getNumberOfPermutations (n + 1)
  /\ 2 * Double.getNumberOfPermutations n <= Double.getNumberOfPermutations (n + 2)
  /\ Double.getNumberOfPermutations (n + 2) < 2 ^ 53
  /\ Double.getNumberOfPermutations 78 < 2 * Double.getNumberOfPermutations 76.
Proof.
  intros Hn.
  rewrite (double_agrees n), (double_agrees (n + 1)), (double_agrees (n + 2)) by lia.
  pose proof (getNumberOfPermutations_positive n ltac:(lia)) as Hpos.
  pose proof (getNumberOfPermutations_monotone n (n + 1) ltac:(lia)) as Hmono.
  split; [split; [exact Hpos |] |]; [| split; [exact Hmono |]; split; [| split]].
  - pose proof (proj1 (getNumberOfPermutations_le_pow2 (Z.to_nat n))) as Hpow.
    rewrite Z2Nat.id in Hpow by lia. exact Hpow.
  - rewrite (getNumberOfPermutations_step (n + 2)) by lia.
    replace (n + 2 - 1) with (n + 1) by lia.
    replace (n + 2 - 2) with n by lia. lia.
  - rewrite <- limit_pow. apply count_below_limit. lia.
  - rewrite (double_stops 78), (double_agrees 76) by lia.
    rewrite getNumberOfPermutations_76. reflexivity.
Qed.

Lemma count_growth_at_10 :
  0 <= 10 <= 75 /\
  1 <= Double.getNumberOfPermutations 10 <= 2 ^ 10
  /\ Double.getNumberOfPermutations 10 <= Double.getNumberOfPermutations (10 + 1)
  /\ 2 * Double.getNumberOfPermutations 10
     <= Double.getNumberOfPermutations (10 + 2).
Proof.
  split; [lia |].
  pose proof (count_growth 10 ltac:(lia)) as [Hsize [Hmono [Hdouble _]]].
  split; [exact Hsize |]. split; assumption.
Defined.

(** ** The scripts *)

Lemma testScript_body (numberOfPills sum global : Z) :
  TestScript.getNumberOfPermutations numberOfPills sum global =
    if sum >? numberOfPills then global
    else if sum =? numberOfPills then Double.increment global
    else TestScript.getNumberOfPermutations numberOfPills (sum + maxPillsPerDay)
           (TestScript.getNumberOfPermutations numberOfPills (sum + minPillsPerDay) global).
Proof.
  rewrite (TestScript.getNumberOfPermutations_equation_1 numberOfPills sum global).
  destruct (Z_gt_dec sum numberOfPills) as [Hgt | Hgt]; simpl.
  - destruct (Z.gtb_spec sum numberOfPills); [reflexivity | lia].
  - destruct (Z.gtb_spec sum numberOfPills); [lia |].
    destruct (Z.eq_dec sum numberOfPills) as [He | He]; simpl.
    + rewrite (proj2 (Z.eqb_eq _ _) He). reflexivity.
    + rewrite (proj2 (Z.eqb_neq _ _) He). reflexivity.
Qed.

Lemma testScript_as_findPermutations (numberOfPills sum global : Z) :
  TestScript.getNumberOfPermutations numberOfPills sum global
  = Double.findPermutations numberOfPills sum global.
Proof.
  revert global.
  induction sum as [sum IH]
    using (well_founded_induction (calls_well_founded numberOfPills)).
  intros global. rewrite testScript_body, double_body.
  destruct (Z.gtb_spec sum numberOfPills); [reflexivity |].
  destruct (Z.eqb_spec sum numberOfPills); [reflexivity |].
  rewrite (IH (sum + minPillsPerDay))
    by (constructor; unfold minPillsPerDay, maxPillsPerDay; lia).
  apply IH. constructor; unfold minPillsPerDay, maxPillsPerDay; lia.
Qed.

(** X4.  The function of the two scripts, called with a running sum [sum]
    and the global at [global] between 0 and 2^53, leaves the global at
    [global] plus the count for [total - sum] pills, or at 2^53 if that is
    more; so the scripts, which start at sum 0 with the global at 0, print
    the counts for 43 and for 48 pills, 701408733 and 7778742049. *)
Theorem scripts_add_count (total sum global : Z) :
  0 <= sum -> total < 2 ^ 53 -> 0 <= global <= 2 ^ 53 ->
  Script.getNumberOfPermutations total sum global
  = Z.min (2 ^ 53) (global + Count (total - sum))
  /\ TestScript.getNumberOfPermutations total sum global
     = Z.min (2 ^ 53) (global + Count (total - sum))
  /\ (global + Count (total - sum) <= 2 ^ 53 ->
      Script.getNumberOfPermutations total sum global = global + Count (total - sum)
      /\ TestScript.getNumberOfPermutations total sum global
         = global + Count (total - sum))
  /\ Script.main = 701408733
  /\ TestScript.main = 7778742049.
Proof.
  intros _ _ Hglobal. rewrite <- limit_pow in *.
  rewrite <- getNumberOfPermutations_Count.
  assert (Hscript : Script.getNumberOfPermutations total sum global
                    = Z.min Double.limit
                        (global + Dispatcher.getNumberOfPermutations (total - sum))).
  { rewrite script_as_findPermutations. apply double_findPermutations_min. lia. }
  assert (Htest : TestScript.getNumberOfPermutations total sum global
                  = Z.min Double.limit
                      (global + Dispatcher.getNumberOfPermutations (total - sum))).
  { rewrite testScript_as_findPermutations. apply double_findPermutations_min. lia. }
  split; [exact Hscript |]. split; [exact Htest |]. split; [| split].
  - intros Hfits. rewrite Hscript, Htest. lia.
  - apply script_main.
  - unfold TestScript.main, TestScript.numberOfPills.
    rewrite testScript_as_findPermutations, double_findPermutations_min
      by discriminate.
    rewrite getNumberOfPermutations_Count. vm_compute. reflexivity.
Qed.

Lemma scripts_add_count_at_5 :
  0 <= 0 /\ 5 < 2 ^ 53 /\ 0 <= 3 <= 2 ^ 53 /\
  Script.getNumberOfPermutations 5 0 3 = Z.min (2 ^ 53) (3 + Count (5 - 0)) /\
  TestScript.getNumberOfPermutations 5 0 3 = Z.min (2 ^ 53) (3 + Count (5 - 0)).
Proof.
  split; [lia |]. split; [reflexivity |]. split; [split; discriminate |].
  pose proof (scripts_add_count 5 0 3 ltac:(lia) ltac:(reflexivity)
                ltac:(split; discriminate)) as [Hscript [Htest _]].
  split; assumption.
Defined.

(** ** Numerals in the query string *)

Lemma digitsPrefix_end (rest : string) (seen : option Z) :
  endsNumeral rest = true -> digitsPrefix 10 rest seen = seen.
Proof.
  destruct rest as [| c rest]; [reflexivity |]. cbn [endsNumeral digitsPrefix].
  destruct (digitValue c) as [d |]; [| reflexivity].
  intros Hd. destruct (Z.ltb_spec d 10); [| reflexivity].
  destruct (Z.leb_spec 10 d); [lia | discriminate].
Qed.

Ltac read_digit :=
  cbn [NilEmpty.string_of_uint String.append digitsPrefix];
  match goal with
  | |- context [digitValue ?c] =>
      let v := eval vm_compute in (digitValue c) in
      change (digitValue c) with v
  end;
  cbv iota;
  match goal with
  | |- context [?a <? 10] =>
      let v := eval vm_compute in (a <? 10) in
      change (a <? 10) with v
  end;
  cbv iota.

Lemma digitsPrefix_acc (d : Decimal.uint) (rest : string) (p : positive) :
  endsNumeral rest = true ->
  digitsPrefix 10 (NilEmpty.string_of_uint d ++ rest) (Some (Z.pos p))
  = Some (Z.pos (Pos.of_uint_acc d p)).
Proof.
  intros Hrest. revert p.
  induction d as [| d IH | d IH | d IH | d IH | d IH | d IH | d IH | d IH | d IH | d IH];
    intros p.
  1: apply digitsPrefix_end; assumption.
  all: read_digit; cbn [Pos.of_uint_acc]; rewrite <- IH; f_equal; f_equal; lia.
Qed.

(** The digits read from the start, nothing or only zeros being read yet. *)
Lemma digitsPrefix_zero (d : Decimal.uint) (rest : string) :
  endsNumeral rest = true ->
  digitsPrefix 10 (NilEmpty.string_of_uint d ++ rest) (Some 0)
  = Some (Z.of_N (Pos.of_uint d)).
Proof.
  intros Hrest.
  induction d as [| d IH | d IH | d IH | d IH | d IH | d IH | d IH | d IH | d IH | d IH].
  1: apply digitsPrefix_end; assumption.
  1: read_digit; cbn [Pos.of_uint]; exact IH.
  all: read_digit; cbn [Pos.of_uint Z.of_N];
    apply (digitsPrefix_acc d rest _ Hrest).
Qed.

Lemma digitsPrefix_start (d : Decimal.uint) (rest : string) :
  d <> Decimal.Nil ->
  endsNumeral rest = true ->
  digitsPrefix 10 (NilEmpty.string_of_uint d ++ rest) None
  = Some (Z.of_N (Pos.of_uint d)).
Proof.
  intros Hd Hrest. destruct d; [contradiction | ..].
  1: read_digit; cbn [Pos.of_uint]; apply digitsPrefix_zero; assumption.
  all: read_digit; cbn [Pos.of_uint Z.of_N];
    apply (digitsPrefix_acc _ rest _ Hrest).
Qed.

Lemma to_uint_head (p : positive) (d : Decimal.uint) :
  Pos.to_uint p <> Decimal.D0 d.
Proof.
  intros Hd.
  assert (Hnorm : Decimal.unorm (Pos.to_uint p) = Pos.to_uint p).
  { rewrite <- (DecimalPos.Unsigned.to_of (Pos.to_uint p)).
    rewrite DecimalPos.Unsigned.of_to. reflexivity. }
  assert (Hnz : Decimal.nzhead (Pos.to_uint p) <> Decimal.Nil).
  { intros Hnil. apply (proj2 (unorm_0 _)) in Hnil. rewrite Hnorm in Hnil.
    exact (Unsigned.to_uint_nonzero p Hnil). }
  rewrite (unorm_nzhead _ Hnz) in Hnorm.
  apply (nzhead_nonzero (Pos.to_uint p) d). rewrite Hnorm. exact Hd.
Qed.

(** The decimal numeral of a positive number, whatever comes after it. *)
Lemma parseInt_pos (p : positive) (rest : string) :
  endsNumeral rest = true ->
  parseInt (toString (Z.pos p) ++ rest) = Some (Z.pos p)
  /\ parseInt (toString (Z.neg p) ++ rest) = Some (Z.neg p).
Proof.
  intros Hrest.
  unfold toString, Z.to_int, NilZero.string_of_int, NilZero.string_of_uint.
  pose proof (digitsPrefix_start (Pos.to_uint p) rest
                (Unsigned.to_uint_nonnil p) Hrest) as Hdigits.
  rewrite DecimalPos.Unsigned.of_to in Hdigits. cbn [Z.of_N] in Hdigits.
  pose proof (to_uint_head p) as Hhead.
  destruct (Pos.to_uint p) eqn:Hp;
    [exfalso; exact (Unsigned.to_uint_nonnil p Hp)
    | exfalso; exact (Hhead _ eq_refl) | ..].
  all: cbn [NilEmpty.string_of_uint String.append] in *;
    unfold parseInt; cbn [trimStart];
    repeat match goal with
           | |- context [isWhiteSpace ?c] =>
               let v := eval vm_compute in (isWhiteSpace c) in
               change (isWhiteSpace c) with v
           end;
    cbv beta iota zeta; rewrite Hdigits; split; reflexivity.
Qed.

Lemma append_empty (s : string) : s ++ "" = s.
Proof. induction s as [| c s IH]; cbn; [| rewrite IH]; reflexivity. Qed.

(** The decimal numeral of an integer is read back as that integer. *)
Lemma parseInt_toString (n : Z) : parseInt (toString n) = Some n.
Proof.
  destruct n as [| p | p]; [reflexivity | |].
  - pose proof (proj1 (parseInt_pos p "" eq_refl)) as H.
    rewrite append_empty in H. exact H.
  - pose proof (proj2 (parseInt_pos p "" eq_refl)) as H.
    rewrite append_empty in H. exact H.
Qed.

Lemma toString_append_truthy (n : Z) (rest : string) :
  truthy (JStr (toString n ++ rest)) = true.
Proof.
  pose proof (toString_not_empty n) as Hne.
  destruct (toString n) as [| c s]; [contradiction | reflexivity].
Qed.

(** X5.  A [pills] parameter that is the decimal text of an integer [n]
    other than 0, alone or followed by text that does not start with a
    decimal digit, is handled exactly as the number [n]: ["47.9"] is served
    as 47 pills, ["1e3"] as 1 pill, ["-5 pills"] refused as -5. *)
Theorem numeral_handled_as_number (env : processEnv) (n : Z) (rest : string) :
  n <> 0 ->
  endsNumeral rest = true ->
  Dispatcher.pillsNumber (JStr (toString n ++ rest)) = Some n
  /\ Dispatcher.handler env (askFor (JStr (toString n ++ rest)))
     = Dispatcher.handler env (askFor (JNum n)).
Proof.
  intros Hn Hrest.
  assert (Hread : Dispatcher.pillsNumber (JStr (toString n ++ rest)) = Some n).
  { cbn [Dispatcher.pillsNumber ToString].
    destruct n as [| p | p]; [contradiction | |].
    - exact (proj1 (parseInt_pos p rest Hrest)).
    - exact (proj2 (parseInt_pos p rest Hrest)). }
  split; [exact Hread |].
  unfold Dispatcher.handler, askFor.
  cbn [Dispatcher.queryStringParameters Dispatcher.pills].
  rewrite Hread, toString_append_truthy.
  cbn [Dispatcher.pillsNumber truthy].
  destruct (Z.eqb_spec n 0); [contradiction | reflexivity].
Qed.

Lemma numeral_handled_as_number_at_47 :
  Dispatcher.pillsNumber (JStr "47.9") = Some 47
  /\ Dispatcher.handler sampleEnv (askFor (JStr "47.9"))
     = Dispatcher.handler sampleEnv (askFor (JNum 47)).
Proof.
  apply (numeral_handled_as_number sampleEnv 47 ".9").
  - discriminate.
  - reflexivity.
Defined.

(** ** Every run of the dispatcher *)

(** What the handler does with an event: it stops with an error about the
    environment, it answers 400, or it goes on to the cache with a total of
    the accepted domain. *)
Lemma handler_cases (env : processEnv) (event : Dispatcher.lambdaEvent) :
  (exists msg : string,
     Dispatcher.handler env event = perform (callback (Some msg) None))
  \/ (exists msg : string,
        Dispatcher.handler env event
        = perform (callback None (Some (prepareResponse 400 (Message msg)))))
  \/ (exists n : Z,
        1 <= n <= 47 /\ configured env
        /\ Dispatcher.handler env event = Dispatcher.checkCache env n).
Proof.
  unfold Dispatcher.handler, configured.
  destruct (isSet (cacheUrl env)); cbn [negb]; [| left; eexists; reflexivity].
  destruct (isSet (deferUrl env)); cbn [negb]; [| left; eexists; reflexivity].
  destruct (Dispatcher.queryStringParameters event) as [q |];
    [| right; left; eexists; reflexivity].
  destruct (truthy (Dispatcher.pills q)); cbn [negb];
    [| right; left; eexists; reflexivity].
  destruct (Dispatcher.pillsNumber (Dispatcher.pills q)) as [n |];
    [| right; left; eexists; reflexivity].
  destruct (Z.ltb_spec n 1); cbn [orb]; [right; left; eexists; reflexivity |].
  destruct (Z.gtb_spec n 47); [right; left; eexists; reflexivity |].
  right; right. exists n. repeat split; try reflexivity; lia.
Qed.

(** Case analysis of a run from the cache check on: hit; no hit and a
    total to compute, the cache write accepted or refused; no hit and a
    total to defer, the creation accepted (with or without an id) or
    refused. *)
Ltac checkCache_cases env w n :=
  rewrite (trace_checkCache env w n);
  destruct (Dispatcher.getFromCache_settle (http w (Dispatcher.cacheGet env n)))
    as [?stored | ?e] eqn:?Hget;
  [destruct (truthy stored) eqn:?Hstored |];
  try (destruct (Z.le_gt_cases n 43) as [?Hn | ?Hn];
       [rewrite (trace_onCacheMiss_compute env w n) by assumption;
        destruct (Dispatcher.saveToCache_settle
                    (http w (Dispatcher.cachePost env n
                               (Dispatcher.getNumberOfPermutations n))))
          as [?saved | ?e] eqn:?Hput
       |rewrite (trace_onCacheMiss_defer env w n) by lia;
        destruct (Dispatcher.deferTask_settle (uuid w)
                    (http w (Dispatcher.deferPost env (uuid w) n)))
          as [?taskId | ?e] eqn:?Hcreate;
        [destruct (truthy (JStr taskId)) eqn:?Hid |]]).

(** X6.  Whatever the event, the environment and the answers to its
    requests, the dispatcher calls the Lambda callback at most once; it
    makes at most two requests, the first of them the cache Get; and it
    runs the Counter at most once, and only on a total from 1 to 43. *)
Theorem dispatcher_bounded
  (env : processEnv) (w : world) (ev : Dispatcher.lambdaEvent) :
  let t := trace w (Dispatcher.handler env ev) in
  (List.length (callbacks t) <= 1)%nat
  /\ (List.length (requests t) <= 2)%nat
  /\ (forall r : Http.request, hd_error (requests t) = Some r -> Http.method r = "GET")
  /\ (List.length (counted t) <= 1)%nat
  /\ (forall x : jsval, In x (counted t) -> exists n : Z, x = JNum n /\ 1 <= n <= 43).
Proof.
  intros t. subst t.
  destruct (handler_cases env ev) as [[msg ->] | [[msg ->] | [n [Hn [_ ->]]]]].
  1, 2: cbn; repeat split; try lia; try discriminate; intros x [].
  checkCache_cases env w n; cbn; repeat split;
    match goal with
    | |- forall r, Some _ = Some r -> _ => intros r [= <-]; reflexivity
    | |- forall x, False -> _ => intros x []
    | |- forall x, _ \/ False -> _ =>
        intros x [<- | []]; exists n; split; [reflexivity | lia]
    | |- _ => lia
    end.
Qed.

(** [deferTask] resolves to the id it generated. *)
Lemma deferTask_resolves (id taskId : string) (answer : http_result) :
  Dispatcher.deferTask_settle id answer = Resolved taskId -> taskId = id.
Proof.
  destruct answer as [err | statusCode body]; cbn; [discriminate |].
  destruct (negb (statusCode =? 200)); [discriminate |].
  intros [= <-]. reflexivity.
Qed.

(** X7.  When [UUID()] gives an id that is not empty, every run of the
    dispatcher ends with exactly one call of the callback: an error alone
    (an environment variable is missing), a response of status 200, 202 or
    400 without an error, or the response of status 500 together with an
    error.  Every response carries the header
    [Access-Control-Allow-Origin: *] and is not base64. *)
Theorem dispatcher_answers_once
  (env : processEnv) (w : world) (ev : Dispatcher.lambdaEvent) :
  uuid w <> "" ->
  exists (err : option string) (res : option response),
    callbacks (trace w (Dispatcher.handler env ev)) = [(err, res)]
    /\ match res with
       | None => err <> None /\ ~ configured env
       | Some r =>
           headers r = [("Access-Control-Allow-Origin", "*")]
           /\ isBase64Encoded r = false
           /\ match err with
              | None => statusCode r = 200 \/ statusCode r = 202 \/ statusCode r = 400
              | Some _ => r = internalError /\ statusCode r = 500
              end
       end.
Proof.
  intros Hid. unfold Dispatcher.handler at 1.
  destruct (isSet (cacheUrl env)) eqn:Hc; cbn [negb].
  2: { eexists _, None. split; [reflexivity |]. split; [discriminate |].
       intros [Hc' _]. congruence. }
  destruct (isSet (deferUrl env)) eqn:Hd; cbn [negb].
  2: { eexists _, None. split; [reflexivity |]. split; [discriminate |].
       intros [_ Hd']. congruence. }
  assert (H400 : forall msg : string,
            exists (err : option string) (res : option response),
              callbacks (trace w (perform (callback None
                           (Some (prepareResponse 400 (Message msg))))))
              = [(err, res)]
              /\ match res with
                 | None => err <> None /\ ~ configured env
                 | Some r =>
                     headers r = [("Access-Control-Allow-Origin", "*")]
                     /\ isBase64Encoded r = false
                     /\ match err with
                        | None => statusCode r = 200 \/ statusCode r = 202
                                  \/ statusCode r = 400
                        | Some _ => r = internalError /\ statusCode r = 500
                        end
                 end).
  { intros msg. eexists None, (Some _). split; [reflexivity |].
    cbn. repeat split. right; right; reflexivity. }
  destruct (Dispatcher.queryStringParameters ev) as [q |]; [| apply H400].
  destruct (truthy (Dispatcher.pills q)); cbn [negb]; [| apply H400].
  destruct (Dispatcher.pillsNumber (Dispatcher.pills q)) as [n |]; [| apply H400].
  destruct ((n <? 1) || (n >? 47)); [apply H400 |].
  checkCache_cases env w n.
  all: match goal with
       | Hempty : truthy (JStr ?t) = false,
         Hcreated : Dispatcher.deferTask_settle _ _ = Resolved ?t |- _ =>
           exfalso; rewrite (deferTask_resolves _ _ _ Hcreated) in Hempty;
           cbn [truthy] in Hempty;
           destruct (String.eqb_spec (uuid w) ""); [contradiction | discriminate]
       | |- _ =>
           first [ eexists None, (Some _); split; [reflexivity |];
                   cbn; repeat split; auto; fail
                 | eexists (Some _), (Some _); split; [reflexivity |];
                   cbn; repeat split ]
       end.
Qed.

Lemma dispatcher_answers_once_at_44 :
  exists (err : option string) (res : option response),
    callbacks (trace (sampleWorld emptyCache allFine)
                 (Dispatcher.handler sampleEnv (askFor (JStr "44"))))
    = [(err, res)]
    /\ match res with
       | None => err <> None /\ ~ configured sampleEnv
       | Some r =>
           headers r = [("Access-Control-Allow-Origin", "*")]
           /\ isBase64Encoded r = false
           /\ match err with
              | None => statusCode r = 200 \/ statusCode r = 202 \/ statusCode r = 400
              | Some _ => r = internalError /\ statusCode r = 500
              end
       end.
Proof.
  apply (dispatcher_answers_once sampleEnv (sampleWorld emptyCache allFine)
           (askFor (JStr "44"))).
  discriminate.
Defined.

(** X8.  For a total of the accepted domain the requests of a run are the
    cache Get and then: nothing on a hit; on no hit and up to 43 pills, the
    one write to the cache, of the total with the count the Counter
    returned; above 43 pills, the one creation of a task, with that total.
    The Counter runs in the second case only. *)
Theorem dispatcher_requests
  (env : processEnv) (w : world) (v : jsval) (total : Z) :
  configured env ->
  Dispatcher.pillsNumber v = Some total ->
  1 <= total <= 47 ->
  let cached := Dispatcher.getFromCache_settle (http w (Dispatcher.cacheGet env total)) in
  requests (Handle env w v)
  = Dispatcher.cacheGet env total
    :: (if isHit cached then []
        else if total <=? 43
             then [Dispatcher.cachePost env total (Dispatcher.getNumberOfPermutations total)]
             else [Dispatcher.deferPost env (uuid w) total])
  /\ counted (Handle env w v)
     = (if isHit cached then [] else if total <=? 43 then [JNum total] else [])
  /\ Http.body (Dispatcher.cachePost env total (Dispatcher.getNumberOfPermutations total))
     = [("pills", toString total);
        ("permutations", toString (Dispatcher.getNumberOfPermutations total))].
Proof.
  intros Henv Hv Ht cached. subst cached.
  rewrite (Handle_validated env w Henv v total Hv Ht).
  split; [| split; [| reflexivity]].
  - checkCache_cases env w total; cbn [isHit]; rewrite ?Hstored;
      try (destruct (Z.leb_spec total 43); [| lia]);
      try (destruct (Z.leb_spec total 43); [lia |]);
      reflexivity.
  - checkCache_cases env w total; cbn [isHit]; rewrite ?Hstored;
      try (destruct (Z.leb_spec total 43); [| lia]);
      try (destruct (Z.leb_spec total 43); [lia |]);
      reflexivity.
Qed.

Lemma dispatcher_requests_at_5 :
  requests (Handle sampleEnv (sampleWorld emptyCache allFine) (JStr "5"))
  = [Dispatcher.cacheGet sampleEnv 5;
     Dispatcher.cachePost sampleEnv 5 (Dispatcher.getNumberOfPermutations 5)]
  /\ counted (Handle sampleEnv (sampleWorld emptyCache allFine) (JStr "5")) = [JNum 5]
  /\ Http.body (Dispatcher.cachePost sampleEnv 5 (Dispatcher.getNumberOfPermutations 5))
     = [("pills", toString 5);
        ("permutations", toString (Dispatcher.getNumberOfPermutations 5))].
Proof.
  apply (dispatcher_requests sampleEnv (sampleWorld emptyCache allFine) (JStr "5") 5).
  - split; reflexivity.
  - reflexivity.
  - lia.
Defined.

(** X9.  An answer of status 202 names the task that was created: its id
    is the id [UUID()] gave, which is not empty, and its url is the url of
    the POST that created the task, a request the run made, for a total
    from 44 to 47, and that was answered with status 200. *)
Theorem deferred_names_created_task
  (env : processEnv) (w : world) (ev : Dispatcher.lambdaEvent)
  (err : option string) (url id : string) :
  In (err, Some (prepareResponse 202 (Deferred url id)))
     (callbacks (trace w (Dispatcher.handler env ev))) ->
  exists total : Z,
    44 <= total <= 47
    /\ id = uuid w /\ id <> ""
    /\ url = Http.url (Dispatcher.deferPost env id total)
    /\ Http.method (Dispatcher.deferPost env id total) = "POST"
    /\ Http.body (Dispatcher.deferPost env id total) = [("pills", toString total)]
    /\ In (Requested (Dispatcher.deferPost env id total)
             (http w (Dispatcher.deferPost env id total)))
          (trace w (Dispatcher.handler env ev))
    /\ refused (http w (Dispatcher.deferPost env id total)) = false.
Proof.
  destruct (handler_cases env ev) as [[msg ->] | [[msg ->] | [n [Hn [_ ->]]]]].
  1, 2: cbn; intros [[=] | []].
  checkCache_cases env w n; cbn [callbacks app In]; intros Hin;
    repeat match goal with
           | H : _ \/ _ |- _ => destruct H
           | H : False |- _ => destruct H
           end;
    unfold completed, internalError, prepareResponse in *;
    try discriminate.
  all: match goal with
       | Hcreated : Dispatcher.deferTask_settle _ _ = Resolved ?t |- _ =>
           pose proof (deferTask_resolves _ _ _ Hcreated); subst t
       end.
  all: match goal with H : (_, _) = (_, _) |- _ => injection H as <- <- <- end.
  all: exists n; repeat split; try lia; try reflexivity.
  all: try (intros Hempty; rewrite Hempty in *; discriminate).
  all: try (cbn [In]; auto 6; fail).
  all: destruct (http w (Dispatcher.deferPost env (uuid w) n)) as [e' | sc body];
    cbn in *; [discriminate |]; destruct (negb (sc =? 200)); [discriminate | reflexivity].
Qed.

Lemma deferred_names_created_task_at_44 :
  exists total : Z,
    44 <= total <= 47
    /\ uuid (sampleWorld emptyCache allFine) = uuid (sampleWorld emptyCache allFine)
    /\ uuid (sampleWorld emptyCache allFine) <> ""
    /\ "https://defer.example/tasks/6c84fb90-12c4-11e1-840d-7b25c5ee775a"
       = Http.url (Dispatcher.deferPost sampleEnv
                     (uuid (sampleWorld emptyCache allFine)) total)
    /\ Http.method (Dispatcher.deferPost sampleEnv
                      (uuid (sampleWorld emptyCache allFine)) total) = "POST"
    /\ Http.body (Dispatcher.deferPost sampleEnv
                    (uuid (sampleWorld emptyCache allFine)) total)
       = [("pills", toString total)]
    /\ In (Requested (Dispatcher.deferPost sampleEnv
                        (uuid (sampleWorld emptyCache allFine)) total)
             (http (sampleWorld emptyCache allFine)
                (Dispatcher.deferPost sampleEnv
                   (uuid (sampleWorld emptyCache allFine)) total)))
          (trace (sampleWorld emptyCache allFine)
             (Dispatcher.handler sampleEnv (askFor (JStr "44"))))
    /\ refused (http (sampleWorld emptyCache allFine)
                  (Dispatcher.deferPost sampleEnv
                     (uuid (sampleWorld emptyCache allFine)) total)) = false.
Proof.
  apply (deferred_names_created_task sampleEnv (sampleWorld emptyCache allFine)
           (askFor (JStr "44")) None
           "https://defer.example/tasks/6c84fb90-12c4-11e1-840d-7b25c5ee775a"
           (uuid (sampleWorld emptyCache allFine))).
  left. reflexivity.
Defined.

(** X10.  For a total of the accepted domain and a cache answer of status
    200, a truthy [permutations] is served as it is, without a run of the
    Counter or another request, whatever it is (the text ["0"] too); a
    falsy one (0, the empty text, [null], [false], no field) is a miss,
    and the run goes on as [onCacheMiss]. *)
Theorem cached_value_served_verbatim
  (env : processEnv) (w : world) (v : jsval) (total : Z) (stored : jsval) :
  configured env ->
  Dispatcher.pillsNumber v = Some total ->
  1 <= total <= 47 ->
  http w (Dispatcher.cacheGet env total) = HttpResponse 200 (Parsed stored) ->
  Handle env w v
  = Requested (Dispatcher.cacheGet env total) (HttpResponse 200 (Parsed stored))
    :: (if truthy stored
        then [CalledBack None (Some (prepareResponse 200 (Complete stored)))]
        else trace w (Dispatcher.onCacheMiss env total))
  /\ truthy (JStr "0") = true
  /\ forallb (fun x => negb (truthy x))
       [JNum 0; JStr ""; JNull; JBool false; JUndefined; JNaN] = true.
Proof.
  intros Henv Hv Ht Hanswer.
  rewrite (Handle_validated env w Henv v total Hv Ht).
  rewrite trace_checkCache, Hanswer. cbn [Dispatcher.getFromCache_settle].
  replace (200 =? 200) with true by reflexivity. cbn [negb].
  split; [| split; reflexivity].
  destruct (truthy stored) eqn:Hstored; [rewrite Hstored |]; reflexivity.
Qed.

Lemma cached_value_served_verbatim_at_44 :
  Handle sampleEnv (sampleWorld (HttpResponse 200 (Parsed (JStr "0"))) allFine) (JStr "44")
  = [Requested (Dispatcher.cacheGet sampleEnv 44) (HttpResponse 200 (Parsed (JStr "0")));
     CalledBack None (Some (prepareResponse 200 (Complete (JStr "0"))))]
  /\ truthy (JStr "0") = true
  /\ forallb (fun x => negb (truthy x))
       [JNum 0; JStr ""; JNull; JBool false; JUndefined; JNaN] = true.
Proof.
  apply (cached_value_served_verbatim sampleEnv
           (sampleWorld (HttpResponse 200 (Parsed (JStr "0"))) allFine)
           (JStr "44") 44 (JStr "0")).
  - split; reflexivity.
  - reflexivity.
  - lia.
  - reflexivity.
Defined.

(** ** Every run of the second worker *)


(** X12.  The Counter of the first worker returns 2 for every positive
    total, as a number or as a text; it returns 1 for the number 0, 2 for a
    text that stands for 0, and 0 for a negative total. *)
Theorem workerV1_counter_values :
  (forall n : Z,
     DeferredWorkerV1.getNumberOfPermutations (Number n)
     = if n <? 0 then 0 else if n =? 0 then 1 else 2)
  /\ (forall (text : string) (value : Z),
        DeferredWorkerV1.getNumberOfPermutations (Numeral text value)
        = if value <? 0 then 0 else 2).
Proof.
  split.
  - intros n. rewrite workerV1_counts. cbn [greater strictEqual valueOf].
    rewrite (Z.gtb_ltb 0 n), (Z.eqb_sym 0 n). reflexivity.
  - intros text value. rewrite workerV1_counts. cbn [greater strictEqual valueOf].
    rewrite (Z.gtb_ltb 0 value). reflexivity.
Qed.

Lemma callbacks_app (t1 t2 : list event) :
  callbacks (t1 ++ t2)%list = (callbacks t1 ++ callbacks t2)%list.
Proof.
  induction t1 as [| [] t1 IH]; cbn; rewrite ?IH; reflexivity.
Qed.

Lemma logged_app (t1 t2 : list event) :
  logged (t1 ++ t2)%list = (logged t1 ++ logged t2)%list.
Proof.
  induction t1 as [| [] t1 IH]; cbn; rewrite ?IH; reflexivity.
Qed.

Lemma answers_app (t1 t2 : list event) :
  answers (t1 ++ t2)%list = (answers t1 ++ answers t2)%list.
Proof.
  induction t1 as [| [] t1 IH]; cbn; rewrite ?IH; reflexivity.
Qed.

Lemma requests_app (t1 t2 : list event) :
  requests (t1 ++ t2)%list = (requests t1 ++ requests t2)%list.
Proof.
  induction t1 as [| [] t1 IH]; cbn; rewrite ?IH; reflexivity.
Qed.

Lemma trace_bind (w : world) {A B : Type} (p : prog A) (f : A -> prog B) :
  trace w (bind p f) = (trace w p ++ trace w (f (snd (run w p))))%list.
Proof.
  unfold trace. rewrite run_bind.
  destruct (run w p) as [t1 a]. cbn [snd fst].
  destruct (run w (f a)). reflexivity.
Qed.

Section WorkerEveryRun.

Import DeferredWorker.

Variable env : processEnv.
Variable w : world.

(** One record: no call of the callback, as many log lines as refused
    requests, and three requests for an INSERT, none otherwise. *)
Lemma processRecord_measures (record : streamRecord) :
  callbacks (trace w (processRecord env record)) = []
  /\ List.length (logged (trace w (processRecord env record)))
     = List.length (filter refused (answers (trace w (processRecord env record))))
  /\ List.length (requests (trace w (processRecord env record)))
     = (if isInsert record then 3%nat else 0%nat).
Proof.
  unfold trace, processRecord, isInsert.
  destruct (String.eqb (eventName record) "INSERT"); [| repeat split].
  unfold logRejection, updateTask, saveToCache.
  cbn [bind perform run answer observe].
  destruct (http w (taskPut env (Keys_id record) "IN_PROGRESS" None))
    as [e1 | s1 b1]; cbn [updateTask_settle];
    [| destruct (negb (s1 =? 200)) eqn:H1];
    cbn [bind perform run answer observe];
    (destruct (http w (taskPut env (Keys_id record) "COMPLETE"
                         (Some (getNumberOfPermutations (NewImage_pills record)))))
       as [e2 | s2 b2]; cbn [updateTask_settle];
     [| destruct (negb (s2 =? 200)) eqn:H2];
     cbn [bind perform run answer observe];
     (destruct (http w (cachePost env (NewImage_pills record)
                          (getNumberOfPermutations (NewImage_pills record))))
        as [e3 | s3 b3]; cbn [Dispatcher.saveToCache_settle];
      [| destruct (negb (s3 =? 200)) eqn:H3];
      cbn [bind perform run answer observe fst callbacks logged answers requests
           filter refused];
      rewrite ?H1, ?H2, ?H3; repeat split)).
Qed.

Lemma forEach_measures (records : list streamRecord) :
  callbacks (trace w (forEach env records)) = []
  /\ List.length (logged (trace w (forEach env records)))
     = List.length (filter refused (answers (trace w (forEach env records))))
  /\ List.length (requests (trace w (forEach env records)))
     = (3 * List.length (filter isInsert records))%nat.
Proof.
  induction records as [| record records [IHc [IHl IHr]]]; [repeat split |].
  cbn [forEach]. rewrite trace_bind.
  destruct (processRecord_measures record) as [Hc [Hl Hr]].
  rewrite callbacks_app, logged_app, answers_app, requests_app, filter_app.
  rewrite !length_app, Hc, IHc, Hl, IHl, Hr, IHr.
  cbn [filter]. destruct (isInsert record); cbn [List.length]; repeat split; lia.
Qed.

Lemma forEach_skips (records : list streamRecord) :
  trace w (forEach env records) = trace w (forEach env (filter isInsert records)).
Proof.
  induction records as [| record records IH]; [reflexivity |].
  cbn [forEach filter]. destruct (isInsert record) eqn:Hins.
  - cbn [forEach]. rewrite !trace_bind, IH. reflexivity.
  - rewrite trace_bind, IH. unfold isInsert in Hins.
    unfold trace at 1, processRecord. rewrite Hins. reflexivity.
Qed.

End WorkerEveryRun.

(** X13.  Records that are not INSERT records change nothing in a run of
    the second worker: the run is the run on the INSERT records alone, and
    with no INSERT record at all it is the single call [callback(null)]. *)
Theorem worker_ignores_other_events
  (env : processEnv) (w : world) (records : list DeferredWorker.streamRecord) :
  trace w (DeferredWorker.handler env {| DeferredWorker.Records := records |})
  = trace w (DeferredWorker.handler env
               {| DeferredWorker.Records := filter isInsert records |})
  /\ (configured env ->
      filter isInsert records = [] ->
      trace w (DeferredWorker.handler env {| DeferredWorker.Records := records |})
      = [CalledBack None None]).
Proof.
  assert (Hsame :
    trace w (DeferredWorker.handler env {| DeferredWorker.Records := records |})
    = trace w (DeferredWorker.handler env
                 {| DeferredWorker.Records := filter isInsert records |})).
  { unfold DeferredWorker.handler. cbn [DeferredWorker.Records].
    destruct (negb (isSet (cacheUrl env))); [reflexivity |].
    destruct (negb (isSet (deferUrl env))); [reflexivity |].
    rewrite !trace_bind, (forEach_skips env w records). reflexivity. }
  split; [exact Hsame |].
  intros [Hc Hd] Hnone. rewrite Hsame, Hnone.
  unfold DeferredWorker.handler. rewrite Hc, Hd. reflexivity.
Qed.

Lemma worker_ignores_other_events_at_modify :
  trace (sampleWorld emptyCache allFine)
    (DeferredWorker.handler sampleEnv
       {| DeferredWorker.Records :=
            [{| DeferredWorker.eventName := "MODIFY";
                DeferredWorker.Keys_id := "t1";
                DeferredWorker.NewImage_pills := Numeral "44" 44 |}] |})
  = [CalledBack None None].
Proof.
  apply (proj2 (worker_ignores_other_events sampleEnv (sampleWorld emptyCache allFine) _)).
  - split; reflexivity.
  - reflexivity.
Defined.

(** X14.  With both environment variables set, the second worker ends
    every run with the one call [callback(null)], whatever the answers to
    its requests: a refused request costs one log line and nothing else.
    It makes three requests for each INSERT record. *)
Theorem worker_reports_success
  (env : processEnv) (w : world) (ev : DeferredWorker.streamEvent) :
  configured env ->
  let t := trace w (DeferredWorker.handler env ev) in
  callbacks t = [(None, None)]
  /\ List.length (logged t) = List.length (filter refused (answers t))
  /\ List.length (requests t)
     = (3 * List.length (filter isInsert (DeferredWorker.Records ev)))%nat.
Proof.
  intros [Hc Hd] t. subst t. unfold DeferredWorker.handler. rewrite Hc, Hd.
  cbn [negb]. rewrite trace_bind.
  destruct (forEach_measures env w (DeferredWorker.Records ev)) as [Hcb [Hlog Hreq]].
  rewrite callbacks_app, logged_app, answers_app, requests_app, filter_app.
  rewrite !length_app, Hcb, Hlog, Hreq. cbn. repeat split; lia.
Qed.

Lemma worker_reports_success_when_all_down :
  callbacks
    (trace (sampleWorld emptyCache allDown)
       (DeferredWorker.handler sampleEnv
          {| DeferredWorker.Records :=
               [{| DeferredWorker.eventName := "INSERT";
                   DeferredWorker.Keys_id := "t1";
                   DeferredWorker.NewImage_pills := Number 5 |}] |}))
  = [(None, None)].
Proof.
  apply (worker_reports_success sampleEnv (sampleWorld emptyCache allDown) _).
  split; reflexivity.
Defined.



(** X16.  For an INSERT record the second worker sends, in this order and
    whatever the answers are, the update of the task of the record to
    IN_PROGRESS, its update to COMPLETE and the write to the cache; the
    Counter runs once, on the total of the record, and its result is what
    both later requests carry, with ["0"] in the update when it is 0. *)
Theorem worker_requests_in_order
  (env : processEnv) (w : world) (id : string) (numberOfPills : total) :
  let record :=
    {| DeferredWorker.eventName := "INSERT";
       DeferredWorker.Keys_id := id;
       DeferredWorker.NewImage_pills := numberOfPills |} in
  let count := DeferredWorker.getNumberOfPermutations numberOfPills in
  requests (trace w (DeferredWorker.processRecord env record))
  = [DeferredWorker.taskPut env id "IN_PROGRESS" None;
     DeferredWorker.taskPut env id "COMPLETE" (Some count);
     DeferredWorker.cachePost env numberOfPills count]
  /\ counted (trace w (DeferredWorker.processRecord env record)) = [jsOf numberOfPills]
  /\ Http.url (DeferredWorker.taskPut env id "COMPLETE" (Some count))
     = envString (deferUrl env) ++ "/" ++ id
  /\ Http.body (DeferredWorker.taskPut env id "COMPLETE" (Some count))
     = [("status", "COMPLETE");
        ("permutations", if count =? 0 then "0" else toString count)]
  /\ Http.body (DeferredWorker.taskPut env id "IN_PROGRESS" None)
     = [("status", "IN_PROGRESS"); ("permutations", "0")].
Proof.
  intros record count. subst record count.
  destruct (processRecord_insert env w id numberOfPills) as [Hreq Hcount].
  split; [exact Hreq |]. split; [exact Hcount |]. split; [reflexivity |].
  split; [| reflexivity].
  cbn [DeferredWorker.taskPut Http.body truthy].
  destruct (DeferredWorker.getNumberOfPermutations numberOfPills =? 0); reflexivity.
Qed.
